(** * Workspace Configuration Assistant for Django: the scaffolding pipeline

    A shallow embedding of [src/extension.ts] (and of the earlier variant of
    the same pipeline kept in the repository), followed by the properties
    of its text patchers and of the order of its side effects.

    - JavaScript strings are [string]s, the bytes of the UTF-8 text of a
      file; [includes], [indexOf] and [replace] follow ECMA-262 for a string
      pattern. The markers searched for are ASCII, for which a match on
      bytes and a match on UTF-16 code units are the same.
    - The file system, the external processes and the user are a [World];
      every function of the extension is a computation [M A] that threads
      the world, may throw, and records the calls it makes ([Action]s).
    - [path.join] belongs to Node and is a parameter of the development. *)

From Stdlib Require Import String Ascii List Bool Arith Lia.
From stdpp Require Import base option gmap strings.

Local Open Scope list_scope.
Local Open Scope string_scope.
#[local] Arguments String.append !s1 s2 : simpl nomatch.

(** ** JavaScript strings *)

Module JS.

(** A string used as a condition is true when it is not empty. *)
Definition truthy (s : string) : bool :=
  match s with
  | EmptyString => false
  | String _ _ => true
  end.

(** [s.startsWith(needle)]. *)
Fixpoint startsWith (s needle : string) : bool :=
  match needle, s with
  | EmptyString, _ => true
  | String _ _, EmptyString => false
  | String a needle', String b s' => Ascii.eqb a b && startsWith s' needle'
  end.

(** [s.indexOf(needle)]: the least position where [needle] starts, if any. *)
Fixpoint indexOf (s needle : string) : option nat :=
  if startsWith s needle then Some 0
  else match s with
       | EmptyString => None
       | String _ s' => option_map S (indexOf s' needle)
       end.

(** [s.includes(needle)]. *)
Definition includes (s needle : string) : bool :=
  match indexOf s needle with
  | Some _ => true
  | None => false
  end.

(** The number of positions of [s] where [needle] starts. *)
Fixpoint occurrences (s needle : string) : nat :=
  (if startsWith s needle then 1 else 0) +
  match s with
  | EmptyString => 0
  | String _ s' => occurrences s' needle
  end.

(** [s.substring(n)]. *)
Fixpoint drop (n : nat) (s : string) : string :=
  match n, s with
  | O, _ => s
  | S _, EmptyString => EmptyString
  | S n', String _ s' => drop n' s'
  end.

(** [s.substring(0, n)]. *)
Fixpoint take (n : nat) (s : string) : string :=
  match n, s with
  | O, _ => EmptyString
  | S _, EmptyString => EmptyString
  | S n', String a s' => String a (take n' s')
  end.

(** GetSubstitution of ECMA-262 for a string pattern: there are no captures,
    so only the dollar forms for the dollar itself, the match, the text
    before it and the text after it are special; every other character,
    a dollar before a digit included, stands for itself. *)
Fixpoint getSubstitution (matched preceding following template : string)
  : string :=
  match template with
  | EmptyString => EmptyString
  | String "$" (String "$" rest) =>
      String "$" (getSubstitution matched preceding following rest)
  | String "$" (String "&" rest) =>
      matched ++ getSubstitution matched preceding following rest
  | String "$" (String "`" rest) =>
      preceding ++ getSubstitution matched preceding following rest
  | String "$" (String "'" rest) =>
      following ++ getSubstitution matched preceding following rest
  | String c rest =>
      String c (getSubstitution matched preceding following rest)
  end.

(** [s.replace(pattern, replacement)] with a string pattern: only the first
    occurrence is replaced, and a string without one is returned as it is. *)
Definition replace (s pattern replacement : string) : string :=
  match indexOf s pattern with
  | None => s
  | Some position =>
      let preceding := take position s in
      let following := drop (position + String.length pattern) s in
      preceding
        ++ getSubstitution pattern preceding following replacement
        ++ following
  end.

(** [/^[a-zA-Z0-9_]+$/.test(s)]. *)
Definition isWordChar (c : ascii) : bool :=
  let n := nat_of_ascii c in
  (((97 <=? n) && (n <=? 122)) || ((65 <=? n) && (n <=? 90))
   || ((48 <=? n) && (n <=? 57)) || (n =? 95))%nat.

Fixpoint allWordChars (s : string) : bool :=
  match s with
  | EmptyString => true
  | String c s' => isWordChar c && allWordChars s'
  end.

Definition testWord (s : string) : bool := truthy s && allWordChars s.

(** Whether the character [c] occurs in [s]. *)
Fixpoint hasChar (s : string) (c : ascii) : bool :=
  match s with
  | EmptyString => false
  | String a s' => Ascii.eqb c a || hasChar s' c
  end.

(** [x === s] for a value [x] that may be [undefined]. *)
Definition strictEq (x : option string) (s : string) : bool :=
  match x with
  | Some y => String.eqb y s
  | None => false
  end.

(** [!x] for a value [x] that may be [undefined]. *)
Definition falsy (x : option string) : bool :=
  match x with
  | Some y => negb (truthy y)
  | None => true
  end.

(** [x || d] for a value [x] that may be [undefined]. *)
Definition orElse (x : option string) (d : string) : string :=
  match x with
  | Some y => if truthy y then y else d
  | None => d
  end.

(** [lines.join(sep)]. *)
Definition join (sep : string) (lines : list string) : string :=
  String.concat sep lines.

(** [JSON.stringify(object, null, 2)] for an object whose values are
    strings or booleans; [members] holds each key with its value already
    printed. *)
Definition quote (s : string) : string :=
  String "034" s ++ String "034" "".

Definition stringify2 (members : list (string * string)) : string :=
  match members with
  | [] => "{}"
  | _ =>
      "{" ++ String "010" ""
        ++ String.concat ("," ++ String "010" "")
             (map (fun m => "  " ++ quote (fst m) ++ ": " ++ snd m) members)
        ++ String "010" "" ++ "}"
  end.

End JS.

(** ** The world: files, external processes, the user *)

(** An entry of the file system. Paths are the strings [path.join] returns;
    the parent of an entry is not tracked. *)
Inductive Node : Type :=
| File (content : string)
| Dir.

(** How a piece of JavaScript completes: normally with a value, by a
    [return] statement of the enclosing function, or by a thrown error. *)
Inductive Completion (A : Type) : Type :=
| Normal (a : A)
| Return
| Throw.
Arguments Normal {A} a.
Arguments Return {A}.
Arguments Throw {A}.

(** The calls the extension makes on its collaborators, in order. Reads and
    prompts carry what they answered. *)
Inductive Action : Type :=
| Exec (command : string) (cwd : option string)
| Exists (path : string) (found : bool)
| Read (path : string) (content : option string)
| Write (path : string) (content : string)
| Mkdir (path : string)
| ShowError (message : string)
| ShowInfo (message : string)
| QuickPick (placeHolder : string) (picked : option string)
| InputBox (placeHolder : string) (entered : option string).

(** - [files]: the file system;
    - [locked]: paths on which a write is refused;
    - [workspaceFolders]: [vscode.workspace.workspaceFolders], the paths of
      the open folders, [None] when no folder is open;
    - [os]: what an external command does to the file system when it is run
      in a working directory, and whether it exits with status zero;
    - [picks]: for each quick pick to come, the index of the item the user
      picks, [None] when the user dismisses it;
    - [typed]: for each input box to come, the values the user submits one
      after the other; the box is dismissed when they are used up. *)
Record World : Type := {
  files : gmap string Node;
  locked : gset string;
  workspaceFolders : option (list string);
  os : string -> option string -> gmap string Node -> gmap string Node * bool;
  picks : list (option nat);
  typed : list (list string)
}.

Definition withFiles (w : World) (fs : gmap string Node) : World :=
  {| files := fs; locked := locked w; workspaceFolders := workspaceFolders w;
     os := os w; picks := picks w; typed := typed w |}.

Definition withPicks (w : World) (p : list (option nat)) : World :=
  {| files := files w; locked := locked w;
     workspaceFolders := workspaceFolders w;
     os := os w; picks := p; typed := typed w |}.

Definition withTyped (w : World) (t : list (list string)) : World :=
  {| files := files w; locked := locked w;
     workspaceFolders := workspaceFolders w;
     os := os w; picks := picks w; typed := t |}.

(** ** Computations *)

Record Run (A : Type) : Type := {
  result : Completion A;
  after : World;
  trace : list Action
}.
Arguments result {A} r.
Arguments after {A} r.
Arguments trace {A} r.

Definition M (A : Type) : Type := World -> Run A.

Definition ret {A} (a : A) : M A :=
  fun w => {| result := Normal a; after := w; trace := [] |}.

(** The [return;] statement. *)
Definition return_ {A} : M A :=
  fun w => {| result := Return; after := w; trace := [] |}.

Definition throw {A} : M A :=
  fun w => {| result := Throw; after := w; trace := [] |}.

Definition bind {A B} (m : M A) (k : A -> M B) : M B :=
  fun w =>
    match m w with
    | {| result := Normal a; after := w1; trace := t1 |} =>
        match k a w1 with
        | {| result := c; after := w2; trace := t2 |} =>
            {| result := c; after := w2; trace := t1 ++ t2 |}
        end
    | {| result := Return; after := w1; trace := t1 |} =>
        {| result := Return; after := w1; trace := t1 |}
    | {| result := Throw; after := w1; trace := t1 |} =>
        {| result := Throw; after := w1; trace := t1 |}
    end.

(** [try { body } catch (error) { handler }]: only a thrown error is caught. *)
Definition tryCatch {A} (body handler : M A) : M A :=
  fun w =>
    match body w with
    | {| result := Throw; after := w1; trace := t1 |} =>
        match handler w1 with
        | {| result := c; after := w2; trace := t2 |} =>
            {| result := c; after := w2; trace := t1 ++ t2 |}
        end
    | r => r
    end.

(** The body of a function that returns nothing: [return;] ends it. *)
Definition func (body : M unit) : M unit :=
  fun w =>
    match body w with
    | {| result := Return; after := w1; trace := t1 |} =>
        {| result := Normal tt; after := w1; trace := t1 |}
    | r => r
    end.

(** [if (c) { body }] without an else branch. *)
Definition when (c : bool) (body : M unit) : M unit :=
  if c then body else ret tt.

Declare Scope js_scope.
Delimit Scope js_scope with js.
Notation "x <- m ;; k" := (bind m (fun x => k))
  (at level 100, m at next level, right associativity) : js_scope.
Notation "m ;; k" := (bind m (fun _ => k))
  (at level 100, right associativity) : js_scope.
Local Open Scope js_scope.

(** ** Node and VS Code primitives *)

Definition emit (a : Action) : M unit :=
  fun w => {| result := Normal tt; after := w; trace := [a] |}.

(** [child_process.execSync(command, { cwd })]: throws when the command
    does not exit with status zero. *)
Definition execSync (command : string) (cwd : option string) : M unit :=
  fun w =>
    let out := os w command cwd (files w) in
    {| result := if snd out then Normal tt else Throw;
       after := withFiles w (fst out);
       trace := [Exec command cwd] |}.

(** Whether there is an entry at [path]. *)
Definition pathExists (w : World) (path : string) : bool :=
  match files w !! path with
  | Some _ => true
  | None => false
  end.

(** [fs.existsSync(path)]. *)
Definition existsSync (path : string) : M bool :=
  fun w =>
    {| result := Normal (pathExists w path); after := w;
       trace := [Exists path (pathExists w path)] |}.

(** The text of the file at [path], if there is one. *)
Definition contentAt (w : World) (path : string) : option string :=
  match files w !! path with
  | Some (File content) => Some content
  | _ => None
  end.

(** [fs.readFileSync(path, 'utf8')]: throws unless [path] is a file. *)
Definition readFileSync (path : string) : M string :=
  fun w =>
    match contentAt w path with
    | Some content =>
        {| result := Normal content; after := w;
           trace := [Read path (Some content)] |}
    | None => {| result := Throw; after := w; trace := [Read path None] |}
    end.

(** Whether [path] is a directory. *)
Definition isDir (w : World) (path : string) : bool :=
  match files w !! path with
  | Some Dir => true
  | _ => false
  end.

(** Whether a write on [path] fails: writing there is refused, or the path
    is a directory. *)
Definition refused (w : World) (path : string) : bool :=
  bool_decide (path ∈ locked w) || isDir w path.

(** The world once [content] is written at [path]. *)
Definition wrote (w : World) (path content : string) : World :=
  withFiles w (<[path := File content]> (files w)).

(** The world once the directory [path] is made. *)
Definition made (w : World) (path : string) : World :=
  withFiles w (<[path := Dir]> (files w)).

(** [fs.writeFileSync(path, content)]: creates or replaces the file, or
    throws and leaves the file system as it is. *)
Definition writeFileSync (path content : string) : M unit :=
  fun w =>
    if refused w path then
      {| result := Throw; after := w; trace := [Write path content] |}
    else
      {| result := Normal tt; after := wrote w path content;
         trace := [Write path content] |}.

(** [fs.mkdirSync(path, { recursive: true })]: an existing directory is not
    an error, an existing file is. *)
Definition mkdirSync (path : string) : M unit :=
  fun w =>
    match files w !! path with
    | Some (File _) =>
        {| result := Throw; after := w; trace := [Mkdir path] |}
    | Some Dir =>
        {| result := Normal tt; after := w; trace := [Mkdir path] |}
    | None =>
        {| result := Normal tt; after := made w path; trace := [Mkdir path] |}
    end.

(** [vscode.window.showErrorMessage] and [showInformationMessage]. *)
Definition showErrorMessage (message : string) : M unit :=
  emit (ShowError message).

Definition showInformationMessage (message : string) : M unit :=
  emit (ShowInfo message).

(** [await vscode.window.showQuickPick(items, { placeHolder })]: the picked
    item, [None] for [undefined] when the user dismisses the list. *)
Definition showQuickPick (items : list string) (placeHolder : string)
  : M (option string) :=
  fun w =>
    let picked :=
      match picks w with
      | Some i :: _ => nth_error items i
      | _ => None
      end in
    {| result := Normal picked; after := withPicks w (tail (picks w));
       trace := [QuickPick placeHolder picked] |}.

(** The user submits [values] one after the other; the first one for which
    [validateInput] answers [null] is accepted. *)
Fixpoint submit (validateInput : string -> M (option string))
  (values : list string) : M (option string) :=
  match values with
  | [] => ret None
  | value :: rest =>
      complaint <- validateInput value;;
      match complaint with
      | None => ret (Some value)
      | Some _ => submit validateInput rest
      end
  end.

(** [await vscode.window.showInputBox({ placeHolder, validateInput })]: the
    accepted value, [None] for [undefined] when the box is dismissed. *)
Definition showInputBox (placeHolder : string)
  (validateInput : string -> M (option string)) : M (option string) :=
  fun w =>
    let values := match typed w with [] => [] | v :: _ => v end in
    match submit validateInput values (withTyped w (tail (typed w))) with
    | {| result := Normal entered; after := w1; trace := t1 |} =>
        {| result := Normal entered; after := w1;
           trace := t1 ++ [InputBox placeHolder entered] |}
    | r => r
    end.

(** [path.join] of Node. *)
Class NodePath : Type := { path_join : list string -> string }.

(** ** Observations on a run *)

(** The calls that start a process or change the file system. *)
Definition mutates (a : Action) : bool :=
  match a with
  | Exec _ _ | Write _ _ | Mkdir _ => true
  | _ => false
  end.

Definition isExec (a : Action) : bool :=
  match a with
  | Exec _ _ => true
  | _ => false
  end.

Definition isError (a : Action) : bool :=
  match a with
  | ShowError _ => true
  | _ => false
  end.

(** The two messages [setupIndexHtml] ends with. *)
Definition setUpMessage : string :=
  "index.html, views.py, and urls.py have been set up.".

Definition setUpFailedMessage : string :=
  "Failed to set up index.html, views.py, and urls.py.".

(** The paths written, in order. *)
Definition written (t : list Action) : list string :=
  flat_map (fun a => match a with Write path _ => [path] | _ => [] end) t.

(** ** The extension *)

Definition lf : string := String "010" "".
Definition dq : string := String "034" "".

(** The block appended to [settings.py]. *)
Definition staticFilesBlock : string :=
  lf ++ lf ++ "// Static files (CSS, JavaScript, Images)" ++ lf ++
  "import os" ++ lf ++ "STATIC_URL = '/static/'" ++ lf ++
  "STATICFILES_DIRS = [os.path.join(BASE_DIR, 'static')]" ++ lf ++
  "STATIC_ROOT = os.path.join(BASE_DIR, 'staticfiles')" ++ lf ++
  "            ".

Definition indexHtmlContent (appName : string) : string :=
  lf ++ "<!DOCTYPE html>" ++ lf ++ "<html lang=" ++ dq ++ "en" ++ dq ++
  ">" ++ lf ++ "<head>" ++ lf ++ "    <meta charset=" ++ dq ++ "UTF-8" ++
  dq ++ ">" ++ lf ++ "    <meta name=" ++ dq ++ "viewport" ++ dq ++
  " content=" ++ dq ++ "width=device-width, initial-scale=1.0" ++ dq ++
  ">" ++ lf ++ "    <title>Welcome to " ++ appName ++ "</title>" ++ lf ++
  "</head>" ++ lf ++ "<body>" ++ lf ++ "    <h1>Hello from " ++ appName ++
  "!</h1>" ++ lf ++ "</body>" ++ lf ++ "</html>" ++ lf ++ "        ".

Definition viewsContent (appName : string) : string :=
  lf ++ "from django.shortcuts import render" ++ lf ++ lf ++
  "def index(request):" ++ lf ++ "    return render(request, '" ++ appName ++
  "/index.html')" ++ lf ++ "        ".

Definition urlsContent : string :=
  lf ++ "from django.urls import path" ++ lf ++ "from . import views" ++
  lf ++ lf ++ "urlpatterns = [" ++ lf ++
  "    path('', views.index, name='index')," ++ lf ++ "]" ++ lf ++ "        ".

(** The text whose presence in the project's [urls.py] tells that the app's
    routes are registered already. *)
Definition includeDirective (appName : string) : string :=
  "include('" ++ appName ++ ".urls')".

(** The line the registration is spliced after. *)
Definition anchor : string := "urlpatterns = [".

(** What the anchor line is replaced with. *)
Definition registration (appName : string) : string :=
  "from django.urls import include" ++ lf ++ lf ++ "urlpatterns = [" ++ lf ++
  "    path('" ++ appName ++ "/', include('" ++ appName ++ ".urls')),".

Section Extension.
Context `{NodePath}.

(** [setupStaticConfiguration]: appends the static files block to the
    project's [settings.py] unless the file mentions [STATICFILES_DIRS]. *)
Definition setupStaticConfiguration (workspaceFolder projectName : string)
  : M unit :=
  func (
    let projectDir := path_join [workspaceFolder; projectName] in
    let settingsFilePath :=
      path_join [projectDir; projectName; "settings.py"] in
    tryCatch (
      found <- existsSync settingsFilePath;;
      when (negb found) (
        showErrorMessage
          ("settings.py not found in project " ++ projectName ++ ".");;
        return_);;
      settingsContent <- readFileSync settingsFilePath;;
      if negb (JS.includes settingsContent "STATICFILES_DIRS") then
        let settingsContent := settingsContent ++ staticFilesBlock in
        writeFileSync settingsFilePath settingsContent;;
        showInformationMessage
          "Static files configuration added to settings.py."
      else
        showInformationMessage
          "Static files configuration already exists in settings.py."
    ) (
      showErrorMessage
        "Failed to add static files configuration to settings.py."
    )).

(** [setupIndexHtml]: writes the template, the view and the routes of the
    app, then registers the app's routes in the project's [urls.py]. *)
Definition setupIndexHtml (workspaceFolder projectName appName : string)
  : M unit :=
  func (
    let appDir := path_join [workspaceFolder; projectName; appName] in
    tryCatch (
      let templatesDir := path_join [appDir; "templates"; appName] in
      mkdirSync templatesDir;;
      let indexHtmlPath := path_join [templatesDir; "index.html"] in
      writeFileSync indexHtmlPath (indexHtmlContent appName);;
      let viewsFilePath := path_join [appDir; "views.py"] in
      writeFileSync viewsFilePath (viewsContent appName);;
      let urlsFilePath := path_join [appDir; "urls.py"] in
      writeFileSync urlsFilePath urlsContent;;
      let projectUrlsFilePath :=
        path_join [workspaceFolder; projectName; projectName; "urls.py"] in
      projectUrlsContent <- readFileSync projectUrlsFilePath;;
      when (negb (JS.includes projectUrlsContent (includeDirective appName))) (
        let projectUrlsContent :=
          JS.replace projectUrlsContent anchor (registration appName) in
        writeFileSync projectUrlsFilePath projectUrlsContent);;
      showInformationMessage
        "index.html, views.py, and urls.py have been set up."
    ) (
      showErrorMessage "Failed to set up index.html, views.py, and urls.py."
    )).

(** [setupDjangoWorkspace]: the pipeline. *)
Definition setupDjangoWorkspace (workspaceFolder projectName appName : string)
  : M unit :=
  func (
    (* Step 1: Check if Python is installed *)
    tryCatch (
      execSync "python --version" None
    ) (
      showErrorMessage
        "Python is not installed or not added to PATH. Please fix this before proceeding.";;
      return_);;
    (* Step 2: Create Django project *)
    let projectPath := path_join [workspaceFolder; projectName] in
    found <- existsSync projectPath;;
    when found (
      showErrorMessage
        ("The project folder " ++ projectName ++ " already exists.");;
      return_);;
    tryCatch (
      execSync ("django-admin startproject " ++ projectName)
        (Some workspaceFolder);;
      showInformationMessage
        ("Django project '" ++ projectName ++ "' created successfully!")
    ) (
      showErrorMessage
        ("Failed to create the Django project '" ++ projectName ++ "'.");;
      return_);;
    (* Step 3: Create the app *)
    let projectDir := path_join [workspaceFolder; projectName] in
    when (JS.truthy appName) (
      tryCatch (
        execSync ("python manage.py startapp " ++ appName) (Some projectDir);;
        showInformationMessage
          ("Django app '" ++ appName ++ "' created successfully in '"
             ++ projectName ++ "'!")
      ) (
        showErrorMessage
          ("Failed to create the Django app '" ++ appName ++ "'.");;
        return_));;
    (* Step 4: Prompt user for static files setup *)
    setupStatic <- showQuickPick ["Yes"; "No"]
      "Do you want to set up static files in settings.py?";;
    (if JS.strictEq setupStatic "Yes" then
       setupStaticConfiguration workspaceFolder projectName
     else if JS.strictEq setupStatic "No" then
       showInformationMessage "Static files setup skipped."
     else ret tt);;
    (* Step 5: Prompt user for index.html, views, and urls setup *)
    setupIndex <- showQuickPick ["Yes"; "No"]
      "Do you want to set up index.html, views.py, and urls.py for your app?";;
    (if JS.strictEq setupIndex "Yes" then
       setupIndexHtml workspaceFolder projectName appName
     else if JS.strictEq setupIndex "No" then
       showInformationMessage "Index, views, and urls setup skipped."
     else ret tt)).

(** The two [validateInput] callbacks of [activate]. *)
Definition validateProjectName (workspaceFolder value : string)
  : M (option string) :=
  if negb (JS.truthy value) then ret (Some "Project name is required")
  else
    found <- existsSync (path_join [workspaceFolder; value]);;
    if found then ret (Some "Project already exists") else ret None.

Definition validateAppName (value : string) : M (option string) :=
  if JS.truthy value && negb (JS.testWord value) then
    ret (Some "App name should contain only letters, numbers, or underscores")
  else ret None.

(** [vscode.workspace.workspaceFolders ?
     vscode.workspace.workspaceFolders[0].uri.fsPath : ''];
    reading [uri] of the first element of an empty array throws. *)
Definition firstWorkspaceFolder : M string :=
  fun w =>
    match workspaceFolders w with
    | None => ret "" w
    | Some [] => throw w
    | Some (folder :: _) => ret folder w
    end.

(** The command [workspaceConfigAssistant.setupDjangoWorkspace] that
    [activate] registers. The pipeline it starts is run to its end here. *)
Definition setupWorkspaceCmd : M unit :=
  func (
    workspaceFolder <- firstWorkspaceFolder;;
    when (negb (JS.truthy workspaceFolder)) (
      showErrorMessage "Please open a folder before running this command.";;
      return_);;
    entered <- showInputBox "Enter the Django project name"
      (validateProjectName workspaceFolder);;
    when (JS.falsy entered) (
      showErrorMessage "No project name entered!";;
      return_);;
    let projectName := JS.orElse entered "" in
    entered <- showInputBox "Enter the Django app name" validateAppName;;
    let appName := JS.orElse entered "" in
    setupDjangoWorkspace workspaceFolder projectName appName).

End Extension.

(** ** The earlier variant of the pipeline

    The repository keeps an earlier [setupDjangoWorkspace], which after the
    project and the app sets up a virtual environment, the dependency
    manifest and the editor settings. *)
Module Earlier.
Section Earlier.
Context `{NodePath}.

Definition requirements : list string :=
  ["Django==3.2.6"; "djangorestframework==3.12.4"].

Definition settings : list (string * string) :=
  [("python.pythonPath", JS.quote "venv/bin/python");
   ("python.linting.enabled", "true");
   ("python.linting.pylintEnabled", "true");
   ("python.formatting.autopep8Path", JS.quote "autopep8")].

Definition setupDjangoWorkspace (workspaceFolder projectName appName : string)
  : M unit :=
  func (
    (* Step 1: Check if Python is installed *)
    tryCatch (
      execSync "python --version" None
    ) (
      showErrorMessage
        "Python is not installed or not added to PATH. Please fix this before proceeding.";;
      return_);;
    (* Step 2: Create Django project *)
    let projectPath := path_join [workspaceFolder; projectName] in
    found <- existsSync projectPath;;
    when found (
      showErrorMessage
        ("The project folder " ++ projectName ++ " already exists.");;
      return_);;
    tryCatch (
      execSync ("django-admin startproject " ++ projectName)
        (Some workspaceFolder);;
      showInformationMessage
        ("Django project '" ++ projectName ++ "' created successfully!")
    ) (
      showErrorMessage
        ("Failed to create the Django project '" ++ projectName ++ "'.");;
      return_);;
    (* Step 3: Navigate into the project directory and create the app *)
    let projectDir := path_join [workspaceFolder; projectName] in
    when (JS.truthy appName) (
      tryCatch (
        execSync ("python manage.py startapp " ++ appName) (Some projectDir);;
        showInformationMessage
          ("Django app '" ++ appName ++ "' created successfully in '"
             ++ projectName ++ "'!")
      ) (
        showErrorMessage
          ("Failed to create the Django app '" ++ appName ++ "'.");;
        return_));;
    (* Step 4: Set up virtual environment for Django *)
    tryCatch (
      execSync "python -m venv venv" (Some projectDir);;
      execSync "pip install -r requirements.txt" (Some projectDir)
    ) (
      showErrorMessage "Failed to set up the virtual environment.";;
      return_);;
    (* Step 5: Create requirements.txt file for dependencies *)
    tryCatch (
      writeFileSync (path_join [projectDir; "requirements.txt"])
        (JS.join lf requirements)
    ) (
      showErrorMessage "Failed to create the requirements.txt file.";;
      return_);;
    (* Step 6: Create VSCode settings for Python *)
    let vscodeFolder := path_join [projectDir; ".vscode"] in
    mkdirSync vscodeFolder;;
    tryCatch (
      writeFileSync (path_join [vscodeFolder; "settings.json"])
        (JS.stringify2 settings)
    ) (
      showErrorMessage "Failed to create VSCode settings.";;
      return_);;
    showInformationMessage
      ("Django workspace for project '" ++ projectName ++ "' is set up!")).

End Earlier.
End Earlier.

(** ** The paths the extension joins *)

Section Paths.
Context `{NodePath}.

(** [settingsFilePath] of [setupStaticConfiguration]. *)
Definition settingsFilePath (workspaceFolder projectName : string) : string :=
  path_join [path_join [workspaceFolder; projectName]; projectName;
             "settings.py"].

(** [templatesDir], [indexHtmlPath], [viewsFilePath], [urlsFilePath] and
    [projectUrlsFilePath] of [setupIndexHtml]. *)
Definition templatesDir (workspaceFolder projectName appName : string)
  : string :=
  path_join [path_join [workspaceFolder; projectName; appName];
             "templates"; appName].

Definition indexHtmlPath (workspaceFolder projectName appName : string)
  : string :=
  path_join [templatesDir workspaceFolder projectName appName; "index.html"].

Definition viewsFilePath (workspaceFolder projectName appName : string)
  : string :=
  path_join [path_join [workspaceFolder; projectName; appName]; "views.py"].

Definition urlsFilePath (workspaceFolder projectName appName : string)
  : string :=
  path_join [path_join [workspaceFolder; projectName; appName]; "urls.py"].

Definition projectUrlsFilePath (workspaceFolder projectName : string)
  : string :=
  path_join [workspaceFolder; projectName; projectName; "urls.py"].

(** The manifest and the settings document of the earlier variant. *)
Definition requirementsPath (workspaceFolder projectName : string) : string :=
  path_join [path_join [workspaceFolder; projectName]; "requirements.txt"].

Definition vscodeSettingsPath (workspaceFolder projectName : string)
  : string :=
  path_join [path_join [path_join [workspaceFolder; projectName]; ".vscode"];
             "settings.json"].

(** The first half of [setupIndexHtml]: the directory and the three files
    of the app. *)
Definition writeAppFiles (workspaceFolder projectName appName : string)
  : M unit :=
  mkdirSync (templatesDir workspaceFolder projectName appName);;
  writeFileSync (indexHtmlPath workspaceFolder projectName appName)
    (indexHtmlContent appName);;
  writeFileSync (viewsFilePath workspaceFolder projectName appName)
    (viewsContent appName);;
  writeFileSync (urlsFilePath workspaceFolder projectName appName)
    urlsContent.

(** The world once the directory of the templates exists. *)
Definition templatesMade (w : World)
  (workspaceFolder projectName appName : string) : World :=
  match files w !! templatesDir workspaceFolder projectName appName with
  | None => made w (templatesDir workspaceFolder projectName appName)
  | Some _ => w
  end.

(** The world once the three files of the app are written. *)
Definition appFilesWritten (w : World)
  (workspaceFolder projectName appName : string) : World :=
  wrote
    (wrote
       (wrote (templatesMade w workspaceFolder projectName appName)
          (indexHtmlPath workspaceFolder projectName appName)
          (indexHtmlContent appName))
       (viewsFilePath workspaceFolder projectName appName)
       (viewsContent appName))
    (urlsFilePath workspaceFolder projectName appName) urlsContent.

(** Whether the first half goes through: the directory of the templates is
    not a file, and none of the three writes fails. *)
Definition appFilesOk (w : World)
  (workspaceFolder projectName appName : string) : bool :=
  let w0 := templatesMade w workspaceFolder projectName appName in
  let w1 := wrote w0 (indexHtmlPath workspaceFolder projectName appName)
              (indexHtmlContent appName) in
  let w2 := wrote w1 (viewsFilePath workspaceFolder projectName appName)
              (viewsContent appName) in
  match files w !! templatesDir workspaceFolder projectName appName with
  | Some (File _) => false
  | _ => true
  end
  && negb (refused w0 (indexHtmlPath workspaceFolder projectName appName))
  && negb (refused w1 (viewsFilePath workspaceFolder projectName appName))
  && negb (refused w2 (urlsFilePath workspaceFolder projectName appName)).

(** The calls of the first half when it goes through. *)
Definition appFilesTrace (workspaceFolder projectName appName : string)
  : list Action :=
  [Mkdir (templatesDir workspaceFolder projectName appName);
   Write (indexHtmlPath workspaceFolder projectName appName)
     (indexHtmlContent appName);
   Write (viewsFilePath workspaceFolder projectName appName)
     (viewsContent appName);
   Write (urlsFilePath workspaceFolder projectName appName) urlsContent].

End Paths.

(** ** A concrete world for running the pipeline

    [posix] joins the non-empty segments with a slash; [django] plays the
    project and app generators on a fresh folder. *)
Definition posix : NodePath :=
  {| path_join := fun segments =>
       JS.join "/" (List.filter JS.truthy segments) |}.

Definition generatedSettings : string :=
  "from pathlib import Path" ++ lf ++
  "BASE_DIR = Path(__file__).resolve().parent.parent" ++ lf ++
  "STATIC_URL = 'static/'" ++ lf.

Definition generatedUrls : string :=
  "from django.contrib import admin" ++ lf ++
  "from django.urls import path" ++ lf ++ lf ++
  "urlpatterns = [" ++ lf ++
  "    path('admin/', admin.site.urls)," ++ lf ++ "]" ++ lf.

Definition django (command : string) (cwd : option string)
  (fs : gmap string Node) : gmap string Node * bool :=
  if String.eqb command "django-admin startproject blog" then
    (<["/ws/blog" := Dir]>
       (<["/ws/blog/manage.py" := File "#!/usr/bin/env python"]>
          (<["/ws/blog/blog" := Dir]>
             (<["/ws/blog/blog/settings.py" := File generatedSettings]>
                (<["/ws/blog/blog/urls.py" := File generatedUrls]> fs)))),
     true)
  else if String.eqb command "python manage.py startapp posts" then
    (<["/ws/blog/posts" := Dir]>
       (<["/ws/blog/posts/views.py" := File "# Create your views here."]> fs),
     true)
  else (fs, true).

(** The files of a project [blog] just generated in [/ws]. *)
Definition generatedFiles : gmap string Node :=
  fst (django "django-admin startproject blog" (Some "/ws") {["/ws" := Dir]}).

(** The world once the project [blog] is generated. *)
Definition generatedWorld : World :=
  {| files := generatedFiles;
     locked := ∅;
     workspaceFolders := Some ["/ws"];
     os := django;
     picks := [];
     typed := [] |}.

(** The same with a [settings.py] that is configured already. *)
Definition configuredWorld : World :=
  withFiles generatedWorld
    (<["/ws/blog/blog/settings.py" :=
         File ("STATICFILES_DIRS = []" ++ lf)]> generatedFiles).

(** A project [urls.py] whose list of routes is not written the way the
    generator writes it. *)
Definition reformattedUrls : string :=
  "from django.urls import path" ++ lf ++ lf ++ "urlpatterns=[]" ++ lf.

Definition reformattedWorld : World :=
  withFiles generatedWorld
    (<["/ws/blog/blog/urls.py" := File reformattedUrls]> generatedFiles).

(** A folder [/ws] is open and empty; the user enters [blog] and [posts]
    and answers [Yes] twice. *)
Definition freshWorld : World :=
  {| files := {["/ws" := Dir]};
     locked := ∅;
     workspaceFolders := Some ["/ws"];
     os := django;
     picks := [Some 0; Some 0];
     typed := [["blog"]; ["posts"]] |}.

(** The user enters [blog], then dismisses the box of the app name and
    both quick picks. *)
Definition appDismissedWorld : World :=
  {| files := {["/ws" := Dir]};
     locked := ∅;
     workspaceFolders := Some ["/ws"];
     os := django;
     picks := [None; None];
     typed := [["blog"]; []] |}.

(** The user submits an empty project name, then dismisses the box. *)
Definition projectDismissedWorld : World :=
  {| files := {["/ws" := Dir]};
     locked := ∅;
     workspaceFolders := Some ["/ws"];
     os := django;
     picks := [];
     typed := [[""]] |}.

(** The user enters [blog] and an empty app name, declines the static
    files and accepts the set up of the index page. *)
Definition emptyAppWorld : World :=
  {| files := {["/ws" := Dir]};
     locked := ∅;
     workspaceFolders := Some ["/ws"];
     os := django;
     picks := [Some 1; Some 0];
     typed := [["blog"]; [""]] |}.

(** ** The intermediate variant of the pipeline

    The repository also keeps a [setupDjangoWorkspace] that only offers the
    static files: any answer but [Yes] is a refusal. *)
Module Intermediate.
Section Intermediate.
Context `{NodePath}.

Definition setupDjangoWorkspace (workspaceFolder projectName appName : string)
  : M unit :=
  func (
    (* Step 1: Check if Python is installed *)
    tryCatch (
      execSync "python --version" None
    ) (
      showErrorMessage
        "Python is not installed or not added to PATH. Please fix this before proceeding.";;
      return_);;
    (* Step 2: Create Django project *)
    let projectPath := path_join [workspaceFolder; projectName] in
    found <- existsSync projectPath;;
    when found (
      showErrorMessage
        ("The project folder " ++ projectName ++ " already exists.");;
      return_);;
    tryCatch (
      execSync ("django-admin startproject " ++ projectName)
        (Some workspaceFolder);;
      showInformationMessage
        ("Django project '" ++ projectName ++ "' created successfully!")
    ) (
      showErrorMessage
        ("Failed to create the Django project '" ++ projectName ++ "'.");;
      return_);;
    (* Step 3: Create the app *)
    let projectDir := path_join [workspaceFolder; projectName] in
    when (JS.truthy appName) (
      tryCatch (
        execSync ("python manage.py startapp " ++ appName) (Some projectDir);;
        showInformationMessage
          ("Django app '" ++ appName ++ "' created successfully in '"
             ++ projectName ++ "'!")
      ) (
        showErrorMessage
          ("Failed to create the Django app '" ++ appName ++ "'.");;
        return_));;
    (* Step 4: Prompt to set up static files *)
    setupStatic <- showQuickPick ["Yes"; "No"]
      "Do you want to set up static files in settings.py?";;
    if JS.strictEq setupStatic "Yes" then
      setupStaticConfiguration workspaceFolder projectName
    else
      showInformationMessage "Static files setup skipped.").

End Intermediate.
End Intermediate.

(** ** More observations and worlds *)

(** The calls on the file system and the messages: neither a process nor a
    prompt. *)
Definition isFileOrMessage (a : Action) : bool :=
  match a with
  | Exists _ _ | Read _ _ | Write _ _ | Mkdir _ | ShowError _ | ShowInfo _ =>
      true
  | _ => false
  end.

(** The calls that read a file, write one or make a directory. *)
Definition readsOrWrites (a : Action) : bool :=
  match a with
  | Read _ _ | Write _ _ | Mkdir _ => true
  | _ => false
  end.

(** The place holders of the quick picks shown, in order. *)
Definition quickPicks (t : list Action) : list string :=
  flat_map
    (fun a => match a with QuickPick placeHolder _ => [placeHolder] | _ => [] end)
    t.

(** The two questions of the pipeline. *)
Definition staticQuestion : string :=
  "Do you want to set up static files in settings.py?".

Definition indexQuestion : string :=
  "Do you want to set up index.html, views.py, and urls.py for your app?".

(** The three commands of the pipeline. *)
Definition probeCommand : Action := Exec "python --version" None.

Definition projectCommand (workspaceFolder projectName : string) : Action :=
  Exec ("django-admin startproject " ++ projectName) (Some workspaceFolder).

Definition appCommand `{NodePath}
  (workspaceFolder projectName appName : string) : Action :=
  Exec ("python manage.py startapp " ++ appName)
    (Some (path_join [workspaceFolder; projectName])).

(** The generated project with a [settings.py] that cannot be written. *)
Definition lockedWorld : World :=
  {| files := generatedFiles;
     locked := {["/ws/blog/blog/settings.py"]};
     workspaceFolders := Some ["/ws"];
     os := django;
     picks := [];
     typed := [] |}.

(** The generated project without its [urls.py]. *)
Definition routelessWorld : World :=
  withFiles generatedWorld (delete "/ws/blog/blog/urls.py" generatedFiles).

(** The generated project with the app [posts] registered already. *)
Definition registeredUrls : string :=
  "from django.urls import path, include" ++ lf ++ lf ++
  "urlpatterns = [" ++ lf ++
  "    path('posts/', include('posts.urls'))," ++ lf ++ "]" ++ lf.

Definition registeredWorld : World :=
  withFiles generatedWorld
    (<["/ws/blog/blog/urls.py" := File registeredUrls]> generatedFiles).

(** No folder is open. *)
Definition noFolderWorld : World :=
  {| files := ∅;
     locked := ∅;
     workspaceFolders := None;
     os := django;
     picks := [];
     typed := [["blog"]] |}.

(** The user tries a name with a space, then [posts]. *)
Definition retryWorld : World :=
  {| files := {["/ws" := Dir]};
     locked := ∅;
     workspaceFolders := Some ["/ws"];
     os := django;
     picks := [];
     typed := [["my app"; "posts"]] |}.

(** The user enters [blog] and [posts] and answers [No] twice. *)
Definition declinedWorld : World :=
  {| files := {["/ws" := Dir]};
     locked := ∅;
     workspaceFolders := Some ["/ws"];
     os := django;
     picks := [Some 1; Some 1];
     typed := [["blog"]; ["posts"]] |}.

(** The interpreter is missing: the probe fails. *)
Definition noPython (command : string) (cwd : option string)
  (fs : gmap string Node) : gmap string Node * bool :=
  if String.eqb command "python --version" then (fs, false)
  else django command cwd fs.

Definition noPythonWorld : World :=
  {| files := {["/ws" := Dir]};
     locked := ∅;
     workspaceFolders := Some ["/ws"];
     os := noPython;
     picks := [Some 0; Some 0];
     typed := [["blog"]; ["posts"]] |}.

(** The project generator leaves a file named [.vscode] in the project. *)
Definition dotfile (command : string) (cwd : option string)
  (fs : gmap string Node) : gmap string Node * bool :=
  if String.eqb command "django-admin startproject blog" then
    (<["/ws/blog/.vscode" := File ""]> (fst (django command cwd fs)), true)
  else django command cwd fs.

Definition dotfileWorld : World :=
  {| files := {["/ws" := Dir]};
     locked := ∅;
     workspaceFolders := Some ["/ws"];
     os := dotfile;
     picks := [];
     typed := [] |}.

(** The values the user submits in the next input box. *)
Definition submitted (w : World) : list string :=
  match typed w with
  | [] => []
  | values :: _ => values
  end.

(** Whether [value] can name a new project in [folder]. *)
Definition available `{NodePath} (w : World) (folder value : string) : bool :=
  JS.truthy value && negb (pathExists w (path_join [folder; value])).

(** * Properties *)

(** ** The model at work *)

Example replace_first_only : JS.replace "a-b-c" "-" "+" = "a+b-c".
Proof. reflexivity. Qed.

Example replace_dollar_forms :
  JS.replace "xx[yy]zz" "[yy]" "<$$|$&|$`|$'|$1>" = "xx<$|[yy]|xx|zz|$1>zz".
Proof. reflexivity. Qed.

Example replace_without_match : JS.replace "abc" "z" "q" = "abc".
Proof. reflexivity. Qed.

Example includes_and_occurrences :
  JS.includes "abc" "b" = true /\ JS.includes "" "" = true
  /\ JS.includes "abc" "ca" = false /\ JS.occurrences "aaaa" "aa" = 3.
Proof. repeat split. Qed.

Example testWord_examples :
  JS.testWord "posts_2" = true /\ JS.testWord "my app" = false
  /\ JS.testWord "" = false.
Proof. repeat split. Qed.

Example posix_join :
  @path_join posix ["/ws"; "blog"; ""; "urls.py"] = "/ws/blog/urls.py".
Proof. reflexivity. Qed.

(** The command on the fresh folder: what it starts and what it writes. *)
Example fresh_run_processes :
  List.filter isExec (trace (@setupWorkspaceCmd posix freshWorld))
  = [Exec "python --version" None;
     Exec "django-admin startproject blog" (Some "/ws");
     Exec "python manage.py startapp posts" (Some "/ws/blog")].
Proof. vm_compute. reflexivity. Qed.

Example fresh_run_written :
  written (trace (@setupWorkspaceCmd posix freshWorld))
  = ["/ws/blog/blog/settings.py";
     "/ws/blog/posts/templates/posts/index.html";
     "/ws/blog/posts/views.py"; "/ws/blog/posts/urls.py";
     "/ws/blog/blog/urls.py"].
Proof. vm_compute. reflexivity. Qed.

Example fresh_run_urls :
  contentAt (after (@setupWorkspaceCmd posix freshWorld))
    "/ws/blog/blog/urls.py"
  = Some ("from django.contrib import admin" ++ lf ++
          "from django.urls import path" ++ lf ++ lf ++
          "from django.urls import include" ++ lf ++ lf ++
          "urlpatterns = [" ++ lf ++
          "    path('posts/', include('posts.urls'))," ++ lf ++
          "    path('admin/', admin.site.urls)," ++ lf ++ "]" ++ lf).
Proof. vm_compute. reflexivity. Qed.

Example earlier_run_settings :
  contentAt
    (after (@Earlier.setupDjangoWorkspace posix "/ws" "blog" "posts"
              freshWorld))
    "/ws/blog/.vscode/settings.json"
  = Some ("{" ++ lf ++
          "  " ++ dq ++ "python.pythonPath" ++ dq ++ ": "
            ++ dq ++ "venv/bin/python" ++ dq ++ "," ++ lf ++
          "  " ++ dq ++ "python.linting.enabled" ++ dq ++ ": true," ++ lf ++
          "  " ++ dq ++ "python.linting.pylintEnabled" ++ dq ++ ": true,"
            ++ lf ++
          "  " ++ dq ++ "python.formatting.autopep8Path" ++ dq ++ ": "
            ++ dq ++ "autopep8" ++ dq ++ lf ++ "}").
Proof. vm_compute. reflexivity. Qed.

(** ** Strings *)

Module JSFacts.
Import JS.
#[local] Arguments startsWith !s !needle : simpl nomatch.

Lemma append_assoc (a b c : string) : (a ++ b) ++ c = a ++ b ++ c.
Proof. induction a as [|x a IH]; simpl; [reflexivity | now rewrite IH]. Qed.

Lemma append_empty_r (a : string) : a ++ "" = a.
Proof. induction a as [|x a IH]; simpl; [reflexivity | now rewrite IH]. Qed.

Lemma length_append (a b : string) :
  String.length (a ++ b) = String.length a + String.length b.
Proof. induction a as [|x a IH]; simpl; [reflexivity | now rewrite IH]. Qed.

Lemma hasChar_append (a b : string) (c : ascii) :
  hasChar (a ++ b) c = hasChar a c || hasChar b c.
Proof.
  induction a as [|x a IH]; simpl; [reflexivity|].
  now rewrite IH, orb_assoc.
Qed.

Lemma startsWith_empty (s : string) : startsWith s "" = true.
Proof. now destruct s. Qed.

Lemma startsWith_of_empty (n : string) :
  n <> "" -> startsWith "" n = false.
Proof. destruct n; [congruence | reflexivity]. Qed.

Lemma startsWith_append (n r : string) : startsWith (n ++ r) n = true.
Proof.
  induction n as [|x n IH]; simpl; [apply startsWith_empty|].
  now rewrite Ascii.eqb_refl.
Qed.

(** A needle at the start of [s] is [s]'s first characters. *)
Lemma startsWith_split (s n : string) :
  startsWith s n = true -> s = n ++ drop (String.length n) s.
Proof.
  revert s; induction n as [|x n IH]; intros s Hs; simpl.
  - reflexivity.
  - destruct s as [|y s]; simpl in Hs; [discriminate|].
    apply andb_prop in Hs as [Hxy Hs].
    apply Ascii.eqb_eq in Hxy; subst y.
    simpl. f_equal. now apply IH.
Qed.

Lemma startsWith_trans (s b n : string) :
  startsWith s b = true -> startsWith b n = true -> startsWith s n = true.
Proof.
  revert s b; induction n as [|x n IH]; intros s b Hsb Hbn.
  - apply startsWith_empty.
  - destruct b as [|y b]; simpl in Hbn; [discriminate|].
    destruct s as [|z s]; simpl in Hsb; [discriminate|].
    apply andb_prop in Hbn as [Hxy Hbn].
    apply andb_prop in Hsb as [Hyz Hsb].
    apply Ascii.eqb_eq in Hxy, Hyz; subst.
    simpl. rewrite Ascii.eqb_refl. simpl. eauto.
Qed.

(** A needle that starts [t ++ w] and is no longer than [t] starts [t]. *)
Lemma startsWith_append_long (t w b : string) :
  startsWith (t ++ w) b = true -> String.length b <= String.length t ->
  startsWith t b = true.
Proof.
  revert t; induction b as [|x b IH]; intros t Hs Hlen.
  - apply startsWith_empty.
  - destruct t as [|y t]; simpl in Hlen; [lia|].
    simpl in Hs |- *.
    apply andb_prop in Hs as [Hxy Hs]. rewrite Hxy. simpl.
    apply IH; [assumption | lia].
Qed.

(** A needle that starts [t ++ w] and is no shorter than [t] goes on in [w]. *)
Lemma startsWith_append_short (t w b : string) :
  startsWith (t ++ w) b = true -> String.length t <= String.length b ->
  startsWith w (drop (String.length t) b) = true.
Proof.
  revert b; induction t as [|y t IH]; intros b Hs Hlen; simpl.
  - assumption.
  - destruct b as [|x b]; simpl in Hlen; [lia|].
    simpl in Hs. apply andb_prop in Hs as [_ Hs].
    apply IH; [assumption | lia].
Qed.

(** A needle without the character [c] cannot reach across it. *)
Lemma startsWith_sep (s b n : string) (c : ascii) :
  hasChar n c = false ->
  startsWith (s ++ String c b) n = startsWith s n.
Proof.
  revert s; induction n as [|x n IH]; intros s Hc.
  - now rewrite !startsWith_empty.
  - simpl in Hc. apply orb_false_elim in Hc as [Hcx Hc].
    destruct s as [|y s]; simpl.
    + rewrite Ascii.eqb_sym, Hcx. reflexivity.
    + now rewrite IH.
Qed.

(** A needle whose last character [z] is not in [w] cannot end in [w]. *)
Lemma startsWith_last (s w n : string) (z : ascii) :
  hasChar w z = false ->
  startsWith (s ++ w) (n ++ String z "") = startsWith s (n ++ String z "").
Proof.
  revert s w; induction n as [|x n IH]; intros s w Hz.
  - destruct s as [|y s]; simpl.
    + destruct w as [|y w]; [reflexivity|].
      simpl in Hz. apply orb_false_elim in Hz as [Hz _].
      simpl. now rewrite Hz.
    + now rewrite !startsWith_empty.
  - destruct s as [|y s]; simpl.
    + destruct w as [|y w]; [reflexivity|].
      simpl in Hz. apply orb_false_elim in Hz as [_ Hz].
      specialize (IH "" w Hz). change ("" ++ w) with w in IH.
      simpl. rewrite IH.
      rewrite startsWith_of_empty by (destruct n; discriminate).
      apply andb_false_r.
    + now rewrite IH.
Qed.

(** A needle that starts [a ++ s] puts each of its first characters on
    one of [a]. *)
Lemma startsWith_inner (a s n1 n2 : string) (z : ascii) :
  startsWith (a ++ s) (n1 ++ String z n2) = true ->
  String.length n1 < String.length a ->
  hasChar a z = true.
Proof.
  revert a; induction n1 as [|y n1 IH]; intros a Hs Hlen.
  - destruct a as [|x a]; simpl in Hlen; [lia|].
    simpl in Hs |- *. apply andb_prop in Hs as [Hzx _].
    now rewrite Hzx.
  - destruct a as [|x a]; simpl in Hlen; [lia|].
    simpl in Hs |- *. apply andb_prop in Hs as [_ Hs].
    rewrite (IH a Hs) by lia. apply orb_true_r.
Qed.

Lemma occurrences_of_empty (n : string) :
  n <> "" -> occurrences "" n = 0.
Proof. destruct n; [congruence | reflexivity]. Qed.

(** Occurrences of a needle without [c] are those on either side of [c]. *)
Lemma occurrences_sep (s b n : string) (c : ascii) :
  n <> "" -> hasChar n c = false ->
  occurrences (s ++ String c b) n = occurrences s n + occurrences b n.
Proof.
  intros Hn Hc. induction s as [|x s IH].
  - rewrite occurrences_of_empty by assumption.
    change (occurrences ("" ++ String c b) n)
      with ((if startsWith ("" ++ String c b) n then 1 else 0)
            + occurrences b n).
    rewrite startsWith_sep, startsWith_of_empty by assumption. reflexivity.
  - change (occurrences (String x s ++ String c b) n)
      with ((if startsWith (String x s ++ String c b) n then 1 else 0)
            + occurrences (s ++ String c b) n).
    change (occurrences (String x s) n)
      with ((if startsWith (String x s) n then 1 else 0) + occurrences s n).
    rewrite startsWith_sep, IH by assumption. lia.
Qed.

(** No occurrence ends in a tail [w] without the needle's last character. *)
Lemma occurrences_last (s w n : string) (z : ascii) :
  hasChar w z = false ->
  occurrences (s ++ w) (n ++ String z "") = occurrences s (n ++ String z "").
Proof.
  intros Hz.
  assert (Hne : n ++ String z "" <> "") by (destruct n; discriminate).
  assert (Hw : forall w', hasChar w' z = false ->
                     occurrences w' (n ++ String z "") = 0).
  { induction w' as [|y w' IH]; intros Hw'.
    - now apply occurrences_of_empty.
    - change (occurrences (String y w') (n ++ String z ""))
        with ((if startsWith ("" ++ String y w') (n ++ String z "")
               then 1 else 0) + occurrences w' (n ++ String z "")).
      rewrite startsWith_last, startsWith_of_empty by assumption.
      simpl in Hw'. apply orb_false_elim in Hw' as [_ Hw'].
      now rewrite IH. }
  induction s as [|x s IH].
  - simpl append. rewrite Hw by assumption.
    symmetry. now apply occurrences_of_empty.
  - change (occurrences (String x s ++ w) (n ++ String z ""))
      with ((if startsWith (String x s ++ w) (n ++ String z "") then 1 else 0)
            + occurrences (s ++ w) (n ++ String z "")).
    change (occurrences (String x s) (n ++ String z ""))
      with ((if startsWith (String x s) (n ++ String z "") then 1 else 0)
            + occurrences s (n ++ String z "")).
    now rewrite startsWith_last, IH.
Qed.

(** No occurrence starts in a head [w ++ v] without the needle's character
    [z], when [z] would still fall inside it. *)
Lemma occurrences_inner (w v s n1 n2 : string) (z : ascii) :
  hasChar (w ++ v) z = false -> String.length n1 <= String.length v ->
  occurrences (w ++ v ++ s) (n1 ++ String z n2)
  = occurrences (v ++ s) (n1 ++ String z n2).
Proof.
  intros Hz Hlen. induction w as [|x w IH]; [reflexivity|].
  change (occurrences (String x w ++ v ++ s) (n1 ++ String z n2))
    with ((if startsWith (String x w ++ v ++ s) (n1 ++ String z n2)
           then 1 else 0) + occurrences (w ++ v ++ s) (n1 ++ String z n2)).
  simpl in Hz. apply orb_false_elim in Hz as [Hzx Hz].
  rewrite IH by assumption.
  destruct (startsWith (String x w ++ v ++ s) (n1 ++ String z n2)) eqn:E;
    [|reflexivity].
  exfalso.
  rewrite <- append_assoc in E.
  apply startsWith_inner in E.
  - simpl in E. rewrite Hzx, Hz in E. discriminate.
  - rewrite length_append. simpl. lia.
Qed.

(** No occurrence starts in a head without the needle's first character. *)
Lemma occurrences_skip (w s n : string) (a : ascii) :
  hasChar w a = false ->
  occurrences (w ++ s) (String a n) = occurrences s (String a n).
Proof.
  intros Ha.
  pose proof (occurrences_inner w "" s "" n a) as Hi.
  rewrite append_empty_r in Hi. apply Hi; [assumption | simpl; lia].
Qed.

Lemma includes_occurrences (s n : string) :
  includes s n = false <-> occurrences s n = 0.
Proof.
  unfold includes. induction s as [|x s IH]; simpl.
  - destruct (startsWith "" n); simpl; split; congruence.
  - destruct (startsWith (String x s) n); simpl; [split; congruence|].
    destruct (indexOf s n); simpl in *; tauto.
Qed.

Lemma includes_positive (s n : string) :
  includes s n = true <-> 0 < occurrences s n.
Proof.
  pose proof (includes_occurrences s n) as Hio.
  destruct (includes s n); split; intros Hx; try reflexivity.
  - destruct (occurrences s n); [|lia].
    destruct Hio as [_ Hio]. now specialize (Hio eq_refl).
  - discriminate.
  - destruct Hio as [Hio _]. specialize (Hio eq_refl). lia.
Qed.

Lemma startsWith_append_l (b r n : string) :
  startsWith b n = true -> startsWith (b ++ r) n = true.
Proof.
  intros Hb. apply (startsWith_trans _ b); [apply startsWith_append | exact Hb].
Qed.

Lemma occurrences_append_l (b r n : string) :
  occurrences b n <= occurrences (b ++ r) n.
Proof.
  induction b as [|y b IH].
  - destruct n as [|a n]; [|simpl; lia].
    destruct r; simpl; lia.
  - change (occurrences (String y b ++ r) n)
      with ((if startsWith (String y b ++ r) n then 1 else 0)
            + occurrences (b ++ r) n).
    change (occurrences (String y b) n)
      with ((if startsWith (String y b) n then 1 else 0) + occurrences b n).
    destruct (startsWith (String y b) n) eqn:E.
    + rewrite (startsWith_append_l _ r _ E). lia.
    + destruct (startsWith (String y b ++ r) n); lia.
Qed.

(** A string that starts with [b] includes what [b] includes. *)
Lemma includes_startsWith (t b n : string) :
  startsWith t b = true -> includes b n = true -> includes t n = true.
Proof.
  intros Htb. rewrite !includes_positive.
  rewrite (startsWith_split _ _ Htb).
  pose proof (occurrences_append_l b (drop (String.length b) t) n). lia.
Qed.

(** A string that ends with [b] includes what [b] includes. *)
Lemma includes_append_r (a b n : string) :
  includes b n = true -> includes (a ++ b) n = true.
Proof.
  intros Hb. rewrite includes_positive in *.
  induction a as [|x a IH]; [assumption|].
  simpl. lia.
Qed.

Lemma includes_tail (x : ascii) (s n : string) :
  includes (String x s) n = false -> includes s n = false.
Proof.
  rewrite !includes_occurrences. simpl. lia.
Qed.

(** [indexOf] splits the string around the first occurrence. *)
Lemma indexOf_split (s n : string) (k : nat) :
  indexOf s n = Some k ->
  s = take k s ++ n ++ drop (k + String.length n) s.
Proof.
  revert k; induction s as [|x s IH]; intros k Hk; simpl in Hk.
  - destruct (startsWith "" n) eqn:E; [|discriminate].
    injection Hk as <-. simpl. now apply startsWith_split.
  - destruct (startsWith (String x s) n) eqn:E.
    + injection Hk as <-. simpl take. simpl Nat.add.
      now apply startsWith_split.
    + destruct (indexOf s n) as [j|] eqn:Ej; [|discriminate].
      injection Hk as <-. simpl. f_equal. now apply IH.
Qed.

Lemma indexOf_includes (s n : string) :
  includes s n = true -> exists k, indexOf s n = Some k.
Proof.
  unfold includes. destruct (indexOf s n) as [k|]; [eauto | discriminate].
Qed.

Lemma replace_absent (s pattern replacement : string) :
  includes s pattern = false -> replace s pattern replacement = s.
Proof.
  unfold includes, replace. now destruct (indexOf s pattern).
Qed.

(** A replacement text without a dollar is inserted as it is. *)
Lemma getSubstitution_plain (m p f t : string) :
  hasChar t "$" = false -> getSubstitution m p f t = t.
Proof.
  induction t as [|c t IH]; intros Hd; [reflexivity|].
  simpl in Hd. apply orb_false_elim in Hd as [Hc Hd].
  specialize (IH Hd).
  destruct c as [[] [] [] [] [] [] [] []];
    try discriminate Hc; simpl; now rewrite IH.
Qed.

Lemma replace_present (s pattern replacement : string) :
  includes s pattern = true -> hasChar replacement "$" = false ->
  exists k,
    s = take k s ++ pattern ++ drop (k + String.length pattern) s
    /\ replace s pattern replacement
       = take k s ++ replacement ++ drop (k + String.length pattern) s.
Proof.
  intros Hin Hd. apply indexOf_includes in Hin as [k Hk].
  exists k. split; [now apply indexOf_split|].
  unfold replace. rewrite Hk. now rewrite getSubstitution_plain.
Qed.

(** Characters a word cannot hold. *)
Lemma allWordChars_hasChar (s : string) (c : ascii) :
  allWordChars s = true -> isWordChar c = false -> hasChar s c = false.
Proof.
  intros Hs Hc. induction s as [|x s IH]; [reflexivity|].
  simpl in Hs |- *. apply andb_prop in Hs as [Hx Hs].
  rewrite IH by assumption.
  destruct (Ascii.eqb c x) eqn:E; [|reflexivity].
  apply Ascii.eqb_eq in E; subst x. congruence.
Qed.

End JSFacts.

(** ** The static files block *)

Section StaticBlock.
Import JS JSFacts.

Lemma staticFilesBlock_has_marker :
  includes staticFilesBlock "STATICFILES_DIRS" = true.
Proof. reflexivity. Qed.

(** The block is not a proper overlap of itself: no proper end of the block
    is a start of it. *)
Lemma staticFilesBlock_no_overlap (k : nat) :
  0 < k < String.length staticFilesBlock ->
  startsWith staticFilesBlock (drop k staticFilesBlock) = false.
Proof.
  intros Hk.
  assert (Hall : forallb
            (fun k => negb (startsWith staticFilesBlock
                              (drop k staticFilesBlock)))
            (seq 1 (String.length staticFilesBlock - 1)) = true)
    by (vm_compute; reflexivity).
  rewrite forallb_forall in Hall.
  apply negb_true_iff, Hall, in_seq. lia.
Qed.

(** After the block is appended to a text without the marker, the marker
    occurs once. *)
Lemma appended_marker_once (content : string) :
  includes content "STATICFILES_DIRS" = false ->
  occurrences (content ++ staticFilesBlock) "STATICFILES_DIRS" = 1.
Proof.
  intros Hno. apply includes_occurrences in Hno.
  change staticFilesBlock
    with (String "010" (drop 1 staticFilesBlock)).
  rewrite occurrences_sep by (discriminate || reflexivity).
  rewrite Hno. reflexivity.
Qed.

(** And so does the block. *)
Lemma appended_block_once (content : string) :
  includes content "STATICFILES_DIRS" = false ->
  occurrences (content ++ staticFilesBlock) staticFilesBlock = 1.
Proof.
  induction content as [|x content IH]; intros Hno.
  - vm_compute. reflexivity.
  - change (occurrences (String x content ++ staticFilesBlock)
              staticFilesBlock)
      with ((if startsWith (String x content ++ staticFilesBlock)
                  staticFilesBlock then 1 else 0)
            + occurrences (content ++ staticFilesBlock) staticFilesBlock).
    rewrite IH by (eapply includes_tail; eassumption).
    destruct (startsWith (String x content ++ staticFilesBlock)
                staticFilesBlock) eqn:E; [|reflexivity].
    exfalso.
    destruct (le_lt_dec (String.length staticFilesBlock)
                (String.length (String x content))) as [Hlong|Hshort].
    + apply startsWith_append_long in E; [|assumption].
      pose proof (includes_startsWith _ _ _ E staticFilesBlock_has_marker).
      congruence.
    + apply startsWith_append_short in E; [|lia].
      rewrite staticFilesBlock_no_overlap in E; [discriminate|].
      simpl String.length in *. lia.
Qed.

End StaticBlock.

#[local] Arguments JS.includes : simpl never.
#[local] Arguments JS.replace : simpl never.
#[local] Arguments JS.occurrences : simpl never.
#[local] Arguments staticFilesBlock : simpl never.
#[local] Arguments indexHtmlContent : simpl never.
#[local] Arguments viewsContent : simpl never.
#[local] Arguments urlsContent : simpl never.
#[local] Arguments includeDirective : simpl never.
#[local] Arguments registration : simpl never.
#[local] Arguments anchor : simpl never.
#[local] Arguments contentAt : simpl never.
#[local] Arguments refused : simpl never.
#[local] Arguments isDir : simpl never.
#[local] Arguments wrote : simpl never.
#[local] Arguments made : simpl never.

(** ** The static configuration patcher *)

Import JS JSFacts.

(** What [setupStaticConfiguration] does, case by case. *)
Lemma setupStaticConfiguration_run `{NodePath}
  (w : World) (workspaceFolder projectName : string) :
  let path := settingsFilePath workspaceFolder projectName in
  setupStaticConfiguration workspaceFolder projectName w =
  match files w !! path with
  | None =>
      {| result := Normal tt; after := w;
         trace := [Exists path false;
                   ShowError ("settings.py not found in project "
                                ++ projectName ++ ".")] |}
  | Some Dir =>
      {| result := Normal tt; after := w;
         trace := [Exists path true; Read path None;
                   ShowError
                     "Failed to add static files configuration to settings.py."]
      |}
  | Some (File content) =>
      if includes content "STATICFILES_DIRS" then
        {| result := Normal tt; after := w;
           trace := [Exists path true; Read path (Some content);
                     ShowInfo
                       "Static files configuration already exists in settings.py."]
        |}
      else if refused w path then
        {| result := Normal tt; after := w;
           trace := [Exists path true; Read path (Some content);
                     Write path (content ++ staticFilesBlock);
                     ShowError
                       "Failed to add static files configuration to settings.py."]
        |}
      else
        {| result := Normal tt;
           after := wrote w path (content ++ staticFilesBlock);
           trace := [Exists path true; Read path (Some content);
                     Write path (content ++ staticFilesBlock);
                     ShowInfo
                       "Static files configuration added to settings.py."] |}
  end.
Proof.
  unfold settingsFilePath.
  unfold setupStaticConfiguration, func, tryCatch, bind, when,
    existsSync, pathExists, readFileSync, writeFileSync, contentAt.
  destruct (files w !! _) as [[content|]|] eqn:E; cbn;
    repeat (rewrite E; cbn); try reflexivity.
  destruct (includes content "STATICFILES_DIRS"); cbn; [reflexivity|].
  destruct (refused w _); reflexivity.
Qed.

(** On a settings file without the marker that can be written, a run leaves
    the file with the block appended. *)
Lemma setupStaticConfiguration_patches `{NodePath}
  (w : World) (workspaceFolder projectName content : string) :
  contentAt w (settingsFilePath workspaceFolder projectName) = Some content ->
  includes content "STATICFILES_DIRS" = false ->
  refused w (settingsFilePath workspaceFolder projectName) = false ->
  contentAt (after (setupStaticConfiguration workspaceFolder projectName w))
    (settingsFilePath workspaceFolder projectName)
  = Some (content ++ staticFilesBlock).
Proof.
  intros Hfile Hno Hw.
  rewrite setupStaticConfiguration_run.
  unfold contentAt in Hfile.
  destruct (files w !! _) as [[c|]|]; try discriminate.
  injection Hfile as ->. rewrite Hno, Hw.
  unfold contentAt, wrote. cbn. now rewrite lookup_insert_eq.
Qed.

(** C3: on a settings file that mentions the marker already, the patcher
    writes nothing, leaves the world as it is and reports that the
    configuration exists. *)
Theorem setupStaticConfiguration_already_configured `{NodePath}
  (w : World) (workspaceFolder projectName content : string) :
  contentAt w (settingsFilePath workspaceFolder projectName) = Some content ->
  includes content "STATICFILES_DIRS" = true ->
  let r := setupStaticConfiguration workspaceFolder projectName w in
  after r = w
  /\ written (trace r) = []
  /\ trace r
     = [Exists (settingsFilePath workspaceFolder projectName) true;
        Read (settingsFilePath workspaceFolder projectName) (Some content);
        ShowInfo "Static files configuration already exists in settings.py."].
Proof.
  intros Hfile Hin r. subst r.
  rewrite setupStaticConfiguration_run.
  unfold contentAt in Hfile.
  destruct (files w !! _) as [[c|]|]; try discriminate.
  injection Hfile as ->. rewrite Hin. repeat split.
Qed.

(** A settings file with the marker, in the generated project. *)
Lemma setupStaticConfiguration_already_configured_witness :
  contentAt configuredWorld (@settingsFilePath posix "/ws" "blog")
    = Some ("STATICFILES_DIRS = []" ++ lf)
  /\ includes ("STATICFILES_DIRS = []" ++ lf) "STATICFILES_DIRS" = true
  /\ after (@setupStaticConfiguration posix "/ws" "blog" configuredWorld)
     = configuredWorld.
Proof.
  split; [reflexivity|]. split; [reflexivity|].
  apply (@setupStaticConfiguration_already_configured posix configuredWorld
           "/ws" "blog" ("STATICFILES_DIRS = []" ++ lf));
    reflexivity.
Defined.

(** C2: on a settings file without the marker, one run leaves the file
    with the block appended; the marker and the block each occur exactly
    once in it. *)
Theorem setupStaticConfiguration_appends_once `{NodePath}
  (w : World) (workspaceFolder projectName content : string) :
  contentAt w (settingsFilePath workspaceFolder projectName) = Some content ->
  includes content "STATICFILES_DIRS" = false ->
  refused w (settingsFilePath workspaceFolder projectName) = false ->
  let r := setupStaticConfiguration workspaceFolder projectName w in
  let patched := content ++ staticFilesBlock in
  contentAt (after r) (settingsFilePath workspaceFolder projectName)
    = Some patched
  /\ includes patched "STATICFILES_DIRS" = true
  /\ occurrences patched "STATICFILES_DIRS" = 1
  /\ occurrences patched staticFilesBlock = 1.
Proof.
  intros Hfile Hno Hw r patched. subst r patched.
  split; [|split; [|split]].
  - now apply setupStaticConfiguration_patches.
  - apply includes_append_r, staticFilesBlock_has_marker.
  - now apply appended_marker_once.
  - now apply appended_block_once.
Qed.

(** The settings file of the generated project. *)
Lemma setupStaticConfiguration_appends_once_witness :
  contentAt generatedWorld (@settingsFilePath posix "/ws" "blog")
    = Some generatedSettings
  /\ includes generatedSettings "STATICFILES_DIRS" = false
  /\ refused generatedWorld (@settingsFilePath posix "/ws" "blog") = false
  /\ occurrences (generatedSettings ++ staticFilesBlock) staticFilesBlock = 1.
Proof.
  split; [reflexivity|]. split; [reflexivity|]. split; [reflexivity|].
  apply (@setupStaticConfiguration_appends_once posix generatedWorld
           "/ws" "blog" generatedSettings);
    reflexivity.
Defined.

(** C1: a second run in a row leaves the world exactly as the first run
    left it: the settings file has the same content, with as many
    occurrences of the block. *)
Theorem setupStaticConfiguration_idempotent `{NodePath}
  (w : World) (workspaceFolder projectName : string) :
  let path := settingsFilePath workspaceFolder projectName in
  let once := setupStaticConfiguration workspaceFolder projectName w in
  let twice :=
    setupStaticConfiguration workspaceFolder projectName (after once) in
  after twice = after once
  /\ contentAt (after twice) path = contentAt (after once) path
  /\ option_map (fun content => occurrences content staticFilesBlock)
       (contentAt (after twice) path)
     = option_map (fun content => occurrences content staticFilesBlock)
         (contentAt (after once) path).
Proof.
  intros path once twice.
  assert (Hsame : after twice = after once).
  { subst path once twice.
    rewrite (setupStaticConfiguration_run w).
    destruct (files w !! _) as [[c|]|] eqn:E.
    - destruct (includes c "STATICFILES_DIRS") eqn:Hin.
      + cbn. rewrite setupStaticConfiguration_run, E, Hin. reflexivity.
      + destruct (refused w _) eqn:Hw.
        * cbn. rewrite setupStaticConfiguration_run, E, Hin, Hw. reflexivity.
        * cbn. rewrite setupStaticConfiguration_run. unfold wrote at 1. cbn.
          rewrite lookup_insert_eq.
          rewrite (includes_append_r c _ _ staticFilesBlock_has_marker).
          reflexivity.
    - cbn. rewrite setupStaticConfiguration_run, E. reflexivity.
    - cbn. rewrite setupStaticConfiguration_run, E. reflexivity. }
  now rewrite Hsame.
Qed.

(** ** The routing splice *)

#[local] Arguments setUpMessage : simpl never.
#[local] Arguments setUpFailedMessage : simpl never.

Ltac run_cases :=
  repeat (cbn;
    match goal with
    | |- context [match files ?w !! ?p with _ => _ end] =>
        destruct (files w !! p) as [[?|]|] eqn:?
    | |- context [refused ?w ?p] => destruct (refused w p) eqn:?
    | |- context [contentAt ?w ?p] => destruct (contentAt w p) eqn:?
    | |- context [includes ?a ?b] => destruct (includes a b) eqn:?
    end).

(** What [setupIndexHtml] does, case by case. *)
Lemma setupIndexHtml_run `{NodePath}
  (w : World) (workspaceFolder projectName appName : string) :
  let path := projectUrlsFilePath workspaceFolder projectName in
  let w3 := appFilesWritten w workspaceFolder projectName appName in
  let t0 := appFilesTrace workspaceFolder projectName appName in
  setupIndexHtml workspaceFolder projectName appName w =
  if appFilesOk w workspaceFolder projectName appName then
    match contentAt w3 path with
    | None =>
        {| result := Normal tt; after := w3;
           trace := t0 ++ [Read path None; ShowError setUpFailedMessage] |}
    | Some content =>
        let spliced := replace content anchor (registration appName) in
        if includes content (includeDirective appName) then
          {| result := Normal tt; after := w3;
             trace := t0 ++ [Read path (Some content);
                             ShowInfo setUpMessage] |}
        else if refused w3 path then
          {| result := Normal tt; after := w3;
             trace := t0 ++ [Read path (Some content); Write path spliced;
                             ShowError setUpFailedMessage] |}
        else
          {| result := Normal tt; after := wrote w3 path spliced;
             trace := t0 ++ [Read path (Some content); Write path spliced;
                             ShowInfo setUpMessage] |}
    end
  else
    {| result := Normal tt;
       after := after (writeAppFiles workspaceFolder projectName appName w);
       trace := trace (writeAppFiles workspaceFolder projectName appName w)
                  ++ [ShowError setUpFailedMessage] |}.
Proof.
  unfold setupIndexHtml, writeAppFiles, appFilesOk, appFilesWritten,
    appFilesTrace, templatesMade, projectUrlsFilePath, urlsFilePath,
    viewsFilePath, indexHtmlPath, templatesDir.
  unfold func, tryCatch, bind, when, mkdirSync, writeFileSync, readFileSync,
    showInformationMessage, showErrorMessage, emit.
  run_cases; try discriminate; reflexivity.
Qed.

Lemma locked_wrote (w : World) (path content : string) :
  locked (wrote w path content) = locked w.
Proof. reflexivity. Qed.

Lemma locked_appFilesWritten `{NodePath}
  (w : World) (workspaceFolder projectName appName : string) :
  locked (appFilesWritten w workspaceFolder projectName appName) = locked w.
Proof.
  unfold appFilesWritten, templatesMade. rewrite !locked_wrote.
  now destruct (files w !! _).
Qed.

Lemma files_wrote (w : World) (path content : string) :
  files (wrote w path content) = <[path := File content]> (files w).
Proof. reflexivity. Qed.

Lemma contentAt_wrote (w : World) (path content : string) :
  contentAt (wrote w path content) path = Some content.
Proof. unfold contentAt. now rewrite files_wrote, lookup_insert_eq. Qed.

Lemma contentAt_wrote_ne (w : World) (path other content : string) :
  path <> other ->
  contentAt (wrote w other content) path = contentAt w path.
Proof.
  intros Hne. unfold contentAt.
  now rewrite files_wrote, lookup_insert_ne by congruence.
Qed.

Lemma contentAt_isDir (w : World) (path content : string) :
  contentAt w path = Some content -> isDir w path = false.
Proof.
  unfold contentAt, isDir. now destruct (files w !! path) as [[?|]|].
Qed.

(** The first half only makes the directory and writes. *)
Lemma writeAppFiles_mutates `{NodePath}
  (w : World) (workspaceFolder projectName appName : string) :
  forallb mutates
    (trace (writeAppFiles workspaceFolder projectName appName w)) = true.
Proof.
  unfold writeAppFiles, bind, mkdirSync, writeFileSync.
  run_cases; reflexivity.
Qed.

(** The splice reads the project's [urls.py] only after the first half went
    through, and reads what the first half left there. *)
Lemma setupIndexHtml_read `{NodePath}
  (w : World) (workspaceFolder projectName appName content : string) :
  In (Read (projectUrlsFilePath workspaceFolder projectName) (Some content))
    (trace (setupIndexHtml workspaceFolder projectName appName w)) ->
  appFilesOk w workspaceFolder projectName appName = true
  /\ contentAt (appFilesWritten w workspaceFolder projectName appName)
       (projectUrlsFilePath workspaceFolder projectName) = Some content.
Proof.
  rewrite setupIndexHtml_run.
  destruct (appFilesOk w _ _ _) eqn:Hok.
  - destruct (contentAt _ _) as [c|] eqn:Hc.
    + assert (Hin : In (Read (projectUrlsFilePath workspaceFolder projectName)
                          (Some content))
                      (appFilesTrace workspaceFolder projectName appName
                         ++ [Read (projectUrlsFilePath workspaceFolder
                                     projectName) (Some c)]) ->
                    Some c = Some content).
      { unfold appFilesTrace. cbn. intros Hin.
        repeat (destruct Hin as [Hin|Hin]; try discriminate Hin);
          [congruence | contradiction]. }
      intros Hr. split; [reflexivity|]. apply Hin.
      destruct (includes c _); [|destruct (refused _ _)];
        cbn [trace] in Hr; apply in_app_or in Hr as [Hr|Hr];
        try (apply in_or_app; now left);
        cbn in Hr;
        repeat (destruct Hr as [Hr|Hr]; try discriminate Hr);
        try contradiction;
        apply in_or_app; right; left; exact Hr.
    + cbn [trace]. unfold appFilesTrace. cbn. intros Hr.
      repeat (destruct Hr as [Hr|Hr]; try discriminate Hr). contradiction.
  - cbn [trace]. intros Hr. apply in_app_or in Hr as [Hr|Hr].
    + pose proof (writeAppFiles_mutates w workspaceFolder projectName appName)
        as Hm.
      rewrite forallb_forall in Hm. specialize (Hm _ Hr). discriminate Hm.
    + cbn in Hr. destruct Hr as [Hr|[]]. discriminate Hr.
Qed.

(** C10: whenever the splice reads a project [urls.py] without the include
    directive, its next call writes that file, with the result of the
    replacement; without the anchor line the text written is the text
    read. *)
Theorem setupIndexHtml_writes_when_unregistered `{NodePath}
  (w : World) (workspaceFolder projectName appName content : string) :
  let path := projectUrlsFilePath workspaceFolder projectName in
  let r := setupIndexHtml workspaceFolder projectName appName w in
  In (Read path (Some content)) (trace r) ->
  includes content (includeDirective appName) = false ->
  (exists before rest,
     trace r
     = (before
          ++ Read path (Some content)
          :: Write path (replace content anchor (registration appName))
          :: rest)%list)
  /\ (includes content anchor = false ->
      replace content anchor (registration appName) = content).
Proof.
  intros path r Hread Hno. subst path r.
  apply setupIndexHtml_read in Hread as [Hok Hc].
  split; [|apply replace_absent].
  rewrite setupIndexHtml_run, Hok, Hc, Hno.
  exists (appFilesTrace workspaceFolder projectName appName).
  destruct (refused _ _); eexists; reflexivity.
Qed.

(** A project whose routes are written without the anchor line. *)
Lemma setupIndexHtml_writes_when_unregistered_witness :
  In (Read "/ws/blog/blog/urls.py" (Some reformattedUrls))
    (trace (@setupIndexHtml posix "/ws" "blog" "posts" reformattedWorld))
  /\ includes reformattedUrls (includeDirective "posts") = false
  /\ exists before rest,
       trace (@setupIndexHtml posix "/ws" "blog" "posts" reformattedWorld)
       = (before
            ++ Read "/ws/blog/blog/urls.py" (Some reformattedUrls)
            :: Write "/ws/blog/blog/urls.py" reformattedUrls
            :: rest)%list.
Proof.
  assert (Hread :
    In (Read "/ws/blog/blog/urls.py" (Some reformattedUrls))
      (trace (@setupIndexHtml posix "/ws" "blog" "posts" reformattedWorld))).
  { vm_compute. repeat (first [left; reflexivity | right]). }
  split; [exact Hread|]. split; [reflexivity|].
  exact (proj1
           (@setupIndexHtml_writes_when_unregistered posix reformattedWorld
              "/ws" "blog" "posts" reformattedUrls Hread eq_refl)).
Defined.

(** C6: when the project [urls.py] that the splice reads has neither the
    include directive nor the anchor line, the file keeps its content and
    the function returns normally; unless the file system refuses the
    write, no error message is shown and the run ends with the message of
    success. *)
Theorem setupIndexHtml_anchor_absent `{NodePath}
  (w : World) (workspaceFolder projectName appName content : string) :
  let path := projectUrlsFilePath workspaceFolder projectName in
  let r := setupIndexHtml workspaceFolder projectName appName w in
  In (Read path (Some content)) (trace r) ->
  includes content (includeDirective appName) = false ->
  includes content anchor = false ->
  contentAt (after r) path = Some content
  /\ result r = Normal tt
  /\ (path ∉ locked w ->
      List.filter isError (trace r) = []
      /\ last (trace r) = Some (ShowInfo setUpMessage)).
Proof.
  intros path r Hread Hno Hanchor. subst path r.
  apply setupIndexHtml_read in Hread as [Hok Hc].
  rewrite setupIndexHtml_run, Hok, Hc, Hno.
  rewrite (replace_absent _ _ _ Hanchor).
  destruct (refused _ _) eqn:Hw; cbn [after result trace].
  - split; [exact Hc|]. split; [reflexivity|].
    intros Hlocked. exfalso.
    unfold refused in Hw. rewrite locked_appFilesWritten in Hw.
    rewrite (contentAt_isDir _ _ _ Hc) in Hw.
    rewrite bool_decide_eq_false_2 in Hw by assumption. discriminate Hw.
  - split; [apply contentAt_wrote|]. repeat split.
Qed.

(** The same project: its [urls.py] is left as it was. *)
Lemma setupIndexHtml_anchor_absent_witness :
  In (Read "/ws/blog/blog/urls.py" (Some reformattedUrls))
    (trace (@setupIndexHtml posix "/ws" "blog" "posts" reformattedWorld))
  /\ includes reformattedUrls (includeDirective "posts") = false
  /\ includes reformattedUrls anchor = false
  /\ contentAt
       (after (@setupIndexHtml posix "/ws" "blog" "posts" reformattedWorld))
       "/ws/blog/blog/urls.py"
     = Some reformattedUrls.
Proof.
  assert (Hread :
    In (Read "/ws/blog/blog/urls.py" (Some reformattedUrls))
      (trace (@setupIndexHtml posix "/ws" "blog" "posts" reformattedWorld))).
  { vm_compute. repeat (first [left; reflexivity | right]). }
  split; [exact Hread|]. split; [reflexivity|]. split; [reflexivity|].
  exact (proj1
           (@setupIndexHtml_anchor_absent posix reformattedWorld
              "/ws" "blog" "posts" reformattedUrls Hread eq_refl eq_refl)).
Defined.

(** *** The directive after the splice *)

Ltac no_char Hw :=
  unfold includeDirective, registration, lf;
  rewrite ?hasChar_append;
  repeat match goal with
    | |- context [hasChar ?s ?c] =>
        rewrite (allWordChars_hasChar s c Hw eq_refl)
    end;
  reflexivity.

Ltac same_text :=
  unfold includeDirective, registration, anchor, lf;
  rewrite ?append_assoc; reflexivity.

Section Registration.
Variable appName : string.
Hypothesis Hword : allWordChars appName = true.

Lemma includeDirective_nonempty : includeDirective appName <> "".
Proof. discriminate. Qed.

(** The directive occurs neither before nor after an anchor line of a text
    that does not include it. *)
Lemma around_anchor (pre post : string) :
  occurrences (pre ++ anchor ++ post) (includeDirective appName) = 0 ->
  occurrences pre (includeDirective appName) = 0
  /\ occurrences post (includeDirective appName) = 0.
Proof.
  intros Hno.
  replace (pre ++ anchor ++ post)
    with ((pre ++ "urlpatterns =") ++ String " " ("[" ++ post)) in Hno
    by same_text.
  rewrite occurrences_sep in Hno
    by (apply includeDirective_nonempty || no_char Hword).
  replace (includeDirective appName)
    with (("include('" ++ appName ++ ".urls'") ++ String ")" "") in Hno
    by same_text.
  rewrite occurrences_last in Hno by reflexivity.
  replace (("include('" ++ appName ++ ".urls'") ++ String ")" "")
    with (String "i" ("nclude('" ++ appName ++ ".urls')")) in Hno
    by same_text.
  rewrite (occurrences_skip "[" post) in Hno by reflexivity.
  split; (replace (includeDirective appName)
    with (String "i" ("nclude('" ++ appName ++ ".urls')")) by same_text); lia.
Qed.

(** Between two texts without the directive, the registration brings it
    exactly once. *)
Lemma registration_once (pre post : string) :
  occurrences pre (includeDirective appName) = 0 ->
  occurrences post (includeDirective appName) = 0 ->
  occurrences (pre ++ registration appName ++ post) (includeDirective appName)
  = 1.
Proof.
  intros Hpre Hpost.
  replace (pre ++ registration appName ++ post)
    with ((pre ++ "from django.urls import include" ++ lf ++ lf
             ++ "urlpatterns = [" ++ lf ++ "    path('" ++ appName ++ "/',")
          ++ String " " (includeDirective appName ++ ")," ++ post))
    by same_text.
  rewrite occurrences_sep
    by (apply includeDirective_nonempty || no_char Hword).
  replace (includeDirective appName)
    with (("include('" ++ appName ++ ".urls'") ++ String ")" "") at 1
    by same_text.
  rewrite occurrences_last by no_char Hword.
  replace (("include('" ++ appName ++ ".urls'") ++ String ")" "")
    with (includeDirective appName) by same_text.
  rewrite Hpre.
  replace (includeDirective appName ++ ")," ++ post)
    with (String "i" ("nclude(" ++ ("'" ++ appName) ++ ".urls'))," ++ post))
    by same_text.
  change (occurrences
            (String "i" ("nclude(" ++ ("'" ++ appName) ++ ".urls'))," ++ post))
            (includeDirective appName))
    with ((if startsWith
                (String "i"
                   ("nclude(" ++ ("'" ++ appName) ++ ".urls'))," ++ post))
                (includeDirective appName) then 1 else 0)
          + occurrences ("nclude(" ++ ("'" ++ appName) ++ ".urls'))," ++ post)
              (includeDirective appName)).
  replace (String "i" ("nclude(" ++ ("'" ++ appName) ++ ".urls'))," ++ post))
    with (includeDirective appName ++ ")," ++ post) by same_text.
  rewrite startsWith_append.
  replace (includeDirective appName)
    with (String "i" ("nclude('" ++ appName ++ ".urls')")) at 1
    by same_text.
  rewrite occurrences_skip by reflexivity.
  replace (String "i" ("nclude('" ++ appName ++ ".urls')"))
    with ("include" ++ String "(" ("'" ++ appName ++ ".urls')"))
    by same_text.
  rewrite occurrences_inner by (no_char Hword || (simpl; lia)).
  replace ("include" ++ String "(" ("'" ++ appName ++ ".urls')"))
    with (String "i" ("nclude('" ++ appName ++ ".urls')"))
    by same_text.
  rewrite occurrences_skip by reflexivity.
  replace (String "i" ("nclude('" ++ appName ++ ".urls')"))
    with (includeDirective appName) by same_text.
  rewrite Hpost. reflexivity.
Qed.

(** Replacing the anchor line of a text without the directive leaves a text
    with exactly one. *)
Lemma spliced_once (content : string) :
  includes content (includeDirective appName) = false ->
  includes content anchor = true ->
  occurrences (replace content anchor (registration appName))
    (includeDirective appName) = 1.
Proof.
  intros Hno Hanchor.
  destruct (replace_present content anchor (registration appName) Hanchor)
    as (k & Hsplit & ->); [no_char Hword|].
  apply includes_occurrences in Hno. rewrite Hsplit in Hno.
  apply around_anchor in Hno as [Hpre Hpost].
  now apply registration_once.
Qed.

End Registration.

(** *** A second run of the splice *)

Lemma isDir_wrote (w : World) (path other content : string) :
  isDir w path = true -> isDir w other = false ->
  isDir (wrote w other content) path = true.
Proof.
  intros Hd Ho. unfold isDir in *. rewrite files_wrote.
  destruct (decide (other = path)) as [->|Hne].
  - rewrite Hd in Ho. discriminate.
  - now rewrite lookup_insert_ne.
Qed.

Lemma refused_false (w : World) (path : string) :
  refused w path = false ->
  bool_decide (path ∈ locked w) = false /\ isDir w path = false.
Proof. unfold refused. apply orb_false_elim. Qed.

Lemma refused_wrote (w : World) (path other content : string) :
  refused w path = false ->
  refused (wrote w other content) path = false.
Proof.
  intros Hr. apply refused_false in Hr as [Hl Hd].
  unfold refused. rewrite locked_wrote, Hl. simpl.
  unfold isDir in *. rewrite files_wrote.
  destruct (decide (other = path)) as [->|Hne].
  - now rewrite lookup_insert_eq.
  - now rewrite lookup_insert_ne.
Qed.

Lemma isDir_templatesMade `{NodePath}
  (w : World) (workspaceFolder projectName appName : string) :
  match files w !! templatesDir workspaceFolder projectName appName with
  | Some (File _) => false
  | _ => true
  end = true ->
  isDir (templatesMade w workspaceFolder projectName appName)
    (templatesDir workspaceFolder projectName appName) = true.
Proof.
  unfold templatesMade, isDir.
  destruct (files w !! _) as [[?|]|] eqn:E; intros Hok;
    try discriminate; [now rewrite E|].
  unfold made. cbn. now rewrite lookup_insert_eq.
Qed.

Lemma templatesMade_idle `{NodePath}
  (w : World) (workspaceFolder projectName appName : string) :
  isDir w (templatesDir workspaceFolder projectName appName) = true ->
  templatesMade w workspaceFolder projectName appName = w
  /\ match files w !! templatesDir workspaceFolder projectName appName with
     | Some (File _) => false
     | _ => true
     end = true.
Proof.
  unfold templatesMade, isDir.
  now destruct (files w !! _) as [[?|]|].
Qed.

(** After a run whose splice wrote [spliced], a second run goes through its
    first half again and finds [spliced] in the project's [urls.py]. *)
Lemma appFiles_again `{NodePath}
  (w : World) (workspaceFolder projectName appName content spliced : string) :
  let path := projectUrlsFilePath workspaceFolder projectName in
  let w3 := appFilesWritten w workspaceFolder projectName appName in
  appFilesOk w workspaceFolder projectName appName = true ->
  contentAt w3 path = Some content ->
  ~ In path [indexHtmlPath workspaceFolder projectName appName;
             viewsFilePath workspaceFolder projectName appName;
             urlsFilePath workspaceFolder projectName appName] ->
  appFilesOk (wrote w3 path spliced) workspaceFolder projectName appName
    = true
  /\ contentAt
       (appFilesWritten (wrote w3 path spliced)
          workspaceFolder projectName appName) path
     = Some spliced.
Proof.
  intros path w3 Hok Hc Hdistinct.
  unfold appFilesOk in Hok. cbn zeta in Hok.
  apply andb_prop in Hok as [Hok Hu].
  apply andb_prop in Hok as [Hok Hv].
  apply andb_prop in Hok as [Ht Hi].
  apply negb_true_iff in Hi, Hv, Hu.
  apply isDir_templatesMade in Ht.
  set (t := templatesDir workspaceFolder projectName appName) in *.
  set (i := indexHtmlPath workspaceFolder projectName appName) in *.
  set (v := viewsFilePath workspaceFolder projectName appName) in *.
  set (u := urlsFilePath workspaceFolder projectName appName) in *.
  set (w0 := templatesMade w workspaceFolder projectName appName) in *.
  destruct (refused_false _ _ Hi) as [Hli Hdi].
  destruct (refused_false _ _ Hv) as [Hlv Hdv].
  destruct (refused_false _ _ Hu) as [Hlu Hdu].
  set (x := wrote w3 path spliced).
  assert (Htx : isDir x t = true).
  { subst x w3. unfold appFilesWritten. fold t i v u w0.
    apply isDir_wrote; [|now apply (contentAt_isDir _ _ content)].
    repeat (apply isDir_wrote; [|assumption]). exact Ht. }
  assert (Hix : refused x i = false).
  { subst x w3. unfold appFilesWritten. fold t i v u w0.
    repeat (first [assumption | apply refused_wrote]). }
  assert (Hvx : refused (wrote x i (indexHtmlContent appName)) v = false).
  { subst x w3. unfold appFilesWritten. fold t i v u w0.
    repeat (first [assumption | apply refused_wrote]). }
  assert (Hux : refused
                  (wrote (wrote x i (indexHtmlContent appName)) v
                     (viewsContent appName)) u = false).
  { subst x w3. unfold appFilesWritten. fold t i v u w0.
    repeat (first [assumption | apply refused_wrote]). }
  destruct (templatesMade_idle x workspaceFolder projectName appName Htx)
    as [Hidle Hmatch].
  fold t in Hmatch.
  split.
  - unfold appFilesOk. cbn zeta. fold t i v u. rewrite Hidle, Hmatch.
    now rewrite Hix, Hvx, Hux.
  - unfold appFilesWritten. fold t i v u. rewrite Hidle.
    cbn in Hdistinct.
    rewrite !contentAt_wrote_ne by intuition congruence.
    apply contentAt_wrote.
Qed.

(** C7, as stated, fails: on a project [urls.py] without the anchor line two
    runs in a row leave no include directive at all. *)
Lemma setupIndexHtml_twice_without_anchor :
  option_map (fun content => occurrences content (includeDirective "posts"))
    (contentAt
       (after
          (@setupIndexHtml posix "/ws" "blog" "posts"
             (after
                (@setupIndexHtml posix "/ws" "blog" "posts"
                   reformattedWorld))))
       "/ws/blog/blog/urls.py")
  = Some 0.
Proof. vm_compute. reflexivity. Qed.

(** C7, amended: for an app name of letters, digits and underscores, when
    the project [urls.py] is none of the three files of the app, can be
    written, and is read by the first run with the anchor line and without
    the include directive, two runs in a row leave it with exactly one
    include directive; the second run leaves the text of the first. *)
Theorem setupIndexHtml_twice_registers_once `{NodePath}
  (w : World) (workspaceFolder projectName appName content : string) :
  let path := projectUrlsFilePath workspaceFolder projectName in
  let once := setupIndexHtml workspaceFolder projectName appName w in
  let twice :=
    setupIndexHtml workspaceFolder projectName appName (after once) in
  allWordChars appName = true ->
  In (Read path (Some content)) (trace once) ->
  includes content (includeDirective appName) = false ->
  includes content anchor = true ->
  path ∉ locked w ->
  ~ In path [indexHtmlPath workspaceFolder projectName appName;
             viewsFilePath workspaceFolder projectName appName;
             urlsFilePath workspaceFolder projectName appName] ->
  exists spliced,
    contentAt (after twice) path = Some spliced
    /\ occurrences spliced (includeDirective appName) = 1
    /\ contentAt (after once) path = Some spliced.
Proof.
  intros path once twice Hword Hread Hno Hanchor Hlocked Hdistinct.
  subst path once twice.
  apply setupIndexHtml_read in Hread as [Hok Hc].
  pose proof (spliced_once appName Hword content Hno Hanchor) as Hone.
  set (spliced := replace content anchor (registration appName)) in *.
  exists spliced.
  assert (Hw : refused
                 (appFilesWritten w workspaceFolder projectName appName)
                 (projectUrlsFilePath workspaceFolder projectName) = false).
  { unfold refused. rewrite locked_appFilesWritten.
    rewrite (contentAt_isDir _ _ _ Hc).
    rewrite bool_decide_eq_false_2 by assumption. reflexivity. }
  assert (Hfirst :
    after (setupIndexHtml workspaceFolder projectName appName w)
    = wrote (appFilesWritten w workspaceFolder projectName appName)
        (projectUrlsFilePath workspaceFolder projectName) spliced).
  { rewrite setupIndexHtml_run, Hok, Hc, Hno, Hw. reflexivity. }
  rewrite Hfirst.
  destruct (appFiles_again w workspaceFolder projectName appName content
              spliced Hok Hc Hdistinct) as [Hok2 Hc2].
  split; [|split; [exact Hone | apply contentAt_wrote]].
  rewrite setupIndexHtml_run, Hok2, Hc2.
  assert (Hin : includes spliced (includeDirective appName) = true)
    by (apply includes_positive; lia).
  rewrite Hin. exact Hc2.
Qed.

(** The generated project and the app [posts]. *)
Lemma setupIndexHtml_twice_registers_once_witness :
  allWordChars "posts" = true
  /\ In (Read "/ws/blog/blog/urls.py" (Some generatedUrls))
       (trace (@setupIndexHtml posix "/ws" "blog" "posts" generatedWorld))
  /\ includes generatedUrls (includeDirective "posts") = false
  /\ includes generatedUrls anchor = true
  /\ ("/ws/blog/blog/urls.py" ∉ locked generatedWorld)
  /\ ~ In "/ws/blog/blog/urls.py"
         ["/ws/blog/posts/templates/posts/index.html";
          "/ws/blog/posts/views.py"; "/ws/blog/posts/urls.py"]
  /\ exists spliced,
       contentAt
         (after
            (@setupIndexHtml posix "/ws" "blog" "posts"
               (after
                  (@setupIndexHtml posix "/ws" "blog" "posts"
                     generatedWorld))))
         "/ws/blog/blog/urls.py" = Some spliced
       /\ occurrences spliced (includeDirective "posts") = 1.
Proof.
  assert (Hread :
    In (Read "/ws/blog/blog/urls.py" (Some generatedUrls))
      (trace (@setupIndexHtml posix "/ws" "blog" "posts" generatedWorld))).
  { vm_compute. repeat (first [left; reflexivity | right]). }
  assert (Hlocked : "/ws/blog/blog/urls.py" ∉ locked generatedWorld)
    by apply not_elem_of_empty.
  assert (Hdistinct :
    ~ In "/ws/blog/blog/urls.py"
        ["/ws/blog/posts/templates/posts/index.html";
         "/ws/blog/posts/views.py"; "/ws/blog/posts/urls.py"]).
  { simpl. intros [E|[E|[E|[]]]]; discriminate E. }
  split; [reflexivity|]. split; [exact Hread|]. split; [reflexivity|].
  split; [reflexivity|]. split; [exact Hlocked|]. split; [exact Hdistinct|].
  destruct (@setupIndexHtml_twice_registers_once posix generatedWorld
              "/ws" "blog" "posts" generatedUrls eq_refl Hread eq_refl
              eq_refl Hlocked Hdistinct) as (spliced & Htwice & Hone & _).
  exists spliced. split; assumption.
Defined.

(** ** The pipeline *)

#[local] Arguments setupStaticConfiguration : simpl never.
#[local] Arguments setupIndexHtml : simpl never.
#[local] Arguments showQuickPick : simpl never.
#[local] Arguments pathExists : simpl never.

(** C4, as stated, fails: on a project folder that exists already the
    pipeline stops, but only after it has run the interpreter probe. *)
Lemma setupDjangoWorkspace_collision_runs_probe :
  pathExists generatedWorld "/ws/blog" = true
  /\ List.filter isExec
       (trace (@setupDjangoWorkspace posix "/ws" "blog" "posts" generatedWorld))
     = [Exec "python --version" None].
Proof. split; vm_compute; reflexivity. Qed.

(** C4, amended: when the project folder exists at the time it is checked,
    the pipeline stops with an error message; the interpreter probe is the
    only process it has started, and it has written nothing and made no
    directory. *)
Theorem setupDjangoWorkspace_collision `{NodePath}
  (w : World) (workspaceFolder projectName appName : string) :
  let probe := execSync "python --version" None w in
  let r := setupDjangoWorkspace workspaceFolder projectName appName w in
  pathExists (after probe) (path_join [workspaceFolder; projectName]) = true ->
  List.filter mutates (trace r) = [Exec "python --version" None]
  /\ after r = after probe
  /\ exists message, last (trace r) = Some (ShowError message).
Proof.
  intros probe r Hexists. subst probe r.
  unfold setupDjangoWorkspace, func, tryCatch, bind, when, existsSync,
    execSync, showErrorMessage, emit, return_ in *.
  cbn in *. 
  destruct (snd (os w _ _ _)); cbn in *.
  - rewrite Hexists. cbn. eauto.
  - eauto.
Qed.

(** The project [blog] exists already. *)
Lemma setupDjangoWorkspace_collision_witness :
  pathExists (after (execSync "python --version" None generatedWorld))
    "/ws/blog" = true
  /\ after (@setupDjangoWorkspace posix "/ws" "blog" "posts" generatedWorld)
     = after (execSync "python --version" None generatedWorld).
Proof.
  split; [reflexivity|].
  apply (@setupDjangoWorkspace_collision posix generatedWorld
           "/ws" "blog" "posts" eq_refl).
Defined.

(** ** The command *)

(** C5, as stated, fails: when the box of the app name is dismissed the
    command goes on with an empty app name; it shows no error message and
    starts the interpreter probe and the project generator. *)
Lemma setupWorkspaceCmd_app_dismissed_goes_on :
  In (InputBox "Enter the Django app name" None)
    (trace (@setupWorkspaceCmd posix appDismissedWorld))
  /\ List.filter isError (trace (@setupWorkspaceCmd posix appDismissedWorld)) = []
  /\ List.filter isExec (trace (@setupWorkspaceCmd posix appDismissedWorld))
     = [Exec "python --version" None;
        Exec "django-admin startproject blog" (Some "/ws")]
  /\ pathExists (after (@setupWorkspaceCmd posix appDismissedWorld))
       "/ws/blog/manage.py" = true.
Proof.
  split; [vm_compute; repeat (first [left; reflexivity | right])|].
  repeat split; vm_compute; reflexivity.
Qed.

(** Validating project names only looks at the file system. *)
Lemma submit_validateProjectName `{NodePath}
  (workspaceFolder : string) (values : list string) (w : World) :
  let s := submit (validateProjectName workspaceFolder) values w in
  after s = w
  /\ List.filter mutates (trace s) = []
  /\ exists entered, result s = Normal entered.
Proof.
  induction values as [|value values IH]; cbn.
  - repeat split. eauto.
  - unfold bind, validateProjectName.
    destruct (truthy value); cbn.
    + unfold existsSync. cbn.
      destruct (pathExists w _); cbn.
      * destruct IH as (Hw & Ht & entered & Hr).
        destruct (submit _ values w) as [c w' t]. cbn in *. subst.
        repeat split; eauto.
      * repeat split. eauto.
    + destruct IH as (Hw & Ht & entered & Hr).
      destruct (submit _ values w) as [c w' t]. cbn in *. subst.
      repeat split; eauto.
Qed.

(** C5, amended: when the box of the project name is dismissed, the command
    stops with the message that no project name was entered; it has
    started no process, written nothing and left every file as it was.
    Dismissing the box of the app name stands for an empty app name. *)
Theorem setupWorkspaceCmd_project_dismissed `{NodePath}
  (w : World) (folder : string) (others : list string) :
  let r := setupWorkspaceCmd w in
  workspaceFolders w = Some (folder :: others) ->
  truthy folder = true ->
  result (showInputBox "Enter the Django project name"
            (validateProjectName folder) w) = Normal None ->
  List.filter mutates (trace r) = []
  /\ files (after r) = files w
  /\ result r = Normal tt
  /\ last (trace r) = Some (ShowError "No project name entered!").
Proof.
  intros r Hfolders Hfolder Hbox. subst r.
  unfold showInputBox in Hbox.
  destruct (submit_validateProjectName folder
              (match typed w with [] => [] | v :: _ => v end)
              (withTyped w (tail (typed w)))) as (Hw & Ht & entered & Hr).
  assert (Hrun :
    setupWorkspaceCmd w =
    {| result := Normal tt; after := withTyped w (tail (typed w));
       trace := (trace (submit (validateProjectName folder)
                          (match typed w with [] => [] | v :: _ => v end)
                          (withTyped w (tail (typed w))))
                   ++ [InputBox "Enter the Django project name" None])
                ++ [ShowError "No project name entered!"] |}).
  { unfold setupWorkspaceCmd, func, bind, firstWorkspaceFolder.
    rewrite Hfolders. unfold ret at 1. cbn [when negb]. rewrite Hfolder.
    cbn [negb when]. unfold ret at 1.
    unfold showInputBox.
    destruct (submit _ _ _) as [c w' t]. cbn in Hw, Ht, Hr, Hbox. subst c w'.
    injection Hbox as ->. reflexivity. }
  rewrite Hrun. cbn [trace after result].
  rewrite !List.filter_app, Ht, last_app. repeat split.
Qed.

(** The user submits an empty name, then dismisses the box. *)
Lemma setupWorkspaceCmd_project_dismissed_witness :
  workspaceFolders projectDismissedWorld = Some ["/ws"]
  /\ truthy "/ws" = true
  /\ result (showInputBox "Enter the Django project name"
              (@validateProjectName posix "/ws") projectDismissedWorld)
     = Normal None
  /\ List.filter mutates (trace (@setupWorkspaceCmd posix projectDismissedWorld))
     = [].
Proof.
  split; [reflexivity|]. split; [reflexivity|]. split; [reflexivity|].
  apply (@setupWorkspaceCmd_project_dismissed posix projectDismissedWorld
           "/ws" [] eq_refl eq_refl eq_refl).
Defined.

(** C8: with an empty app name the app generator is not started, yet once
    the user accepts the set up of the index page [setupIndexHtml] runs
    with the empty name: it writes a template, a view and routes into the
    project folder and splices a registration into the project's
    [urls.py]. *)
Theorem setupWorkspaceCmd_empty_app_writes :
  In (InputBox "Enter the Django app name" (Some ""))
    (trace (@setupWorkspaceCmd posix emptyAppWorld))
  /\ List.filter isExec (trace (@setupWorkspaceCmd posix emptyAppWorld))
     = [Exec "python --version" None;
        Exec "django-admin startproject blog" (Some "/ws")]
  /\ written (trace (@setupWorkspaceCmd posix emptyAppWorld))
     = ["/ws/blog/templates/index.html"; "/ws/blog/views.py";
        "/ws/blog/urls.py"; "/ws/blog/blog/urls.py"]
  /\ option_map (fun content => includes content "include('.urls')")
       (contentAt (after (@setupWorkspaceCmd posix emptyAppWorld))
          "/ws/blog/blog/urls.py")
     = Some true.
Proof.
  split; [vm_compute; repeat (first [left; reflexivity | right])|].
  repeat split; vm_compute; reflexivity.
Qed.

(** ** The earlier variant: the dependency manifest *)

Lemma contentAt_made (w : World) (path dir : string) :
  files w !! dir = None -> contentAt (made w dir) path = contentAt w path.
Proof.
  intros Hnone. unfold contentAt, made. cbn.
  destruct (decide (dir = path)) as [->|Hne].
  - now rewrite lookup_insert_eq, Hnone.
  - now rewrite lookup_insert_ne.
Qed.

Ltac pipeline_cases :=
  repeat (cbn;
    match goal with
    | |- context [snd (os ?w ?c ?d ?f)] =>
        destruct (snd (os w c d f)) eqn:?
    | |- context [pathExists ?w ?p] => destruct (pathExists w p) eqn:?
    | |- context [match files ?w !! ?p with _ => _ end] =>
        destruct (files w !! p) as [[?|]|] eqn:?
    | |- context [refused ?w ?p] => destruct (refused w p) eqn:?
    end).

(** C9: after a run of the earlier pipeline that ends with its message of
    success, the project folder holds [requirements.txt] with the two
    dependency lines (the settings document being another file). *)
Theorem earlier_setupDjangoWorkspace_writes_requirements `{NodePath}
  (w : World) (workspaceFolder projectName appName : string) :
  let r := Earlier.setupDjangoWorkspace workspaceFolder projectName appName w in
  last (trace r)
    = Some (ShowInfo ("Django workspace for project '" ++ projectName
                        ++ "' is set up!")) ->
  requirementsPath workspaceFolder projectName
    <> vscodeSettingsPath workspaceFolder projectName ->
  contentAt (after r) (requirementsPath workspaceFolder projectName)
  = Some ("Django==3.2.6" ++ lf ++ "djangorestframework==3.12.4").
Proof.
  intros r. subst r.
  unfold requirementsPath, vscodeSettingsPath.
  unfold Earlier.setupDjangoWorkspace, func, tryCatch, bind, when,
    existsSync, execSync, writeFileSync, mkdirSync, showErrorMessage,
    showInformationMessage, emit, return_, ret.
  destruct appName as [|a appName]; pipeline_cases;
    intros Hlast Hne; try discriminate Hlast.
  all: cbn.
  all: rewrite contentAt_wrote_ne by assumption.
  all: try (rewrite contentAt_made by assumption).
  all: apply contentAt_wrote.
Qed.

(** A run on the fresh folder, where every command succeeds. *)
Lemma earlier_setupDjangoWorkspace_writes_requirements_witness :
  last (trace (@Earlier.setupDjangoWorkspace posix "/ws" "blog" "posts"
                 freshWorld))
    = Some (ShowInfo "Django workspace for project 'blog' is set up!")
  /\ @requirementsPath posix "/ws" "blog"
     <> @vscodeSettingsPath posix "/ws" "blog"
  /\ contentAt
       (after (@Earlier.setupDjangoWorkspace posix "/ws" "blog" "posts"
                 freshWorld))
       "/ws/blog/requirements.txt"
     = Some ("Django==3.2.6" ++ lf ++ "djangorestframework==3.12.4").
Proof.
  assert (Hne : @requirementsPath posix "/ws" "blog"
                <> @vscodeSettingsPath posix "/ws" "blog")
    by (intros E; vm_compute in E; discriminate E).
  split; [reflexivity|]. split; [exact Hne|].
  exact (@earlier_setupDjangoWorkspace_writes_requirements posix freshWorld
           "/ws" "blog" "posts" eq_refl Hne).
Defined.

#[local] Arguments JS.startsWith !s !needle : simpl nomatch.

(** ** More on the static configuration patcher *)

(** X1: without a [settings.py] the patcher says so and does nothing else. *)
Theorem setupStaticConfiguration_missing `{NodePath}
  (w : World) (workspaceFolder projectName : string) :
  pathExists w (settingsFilePath workspaceFolder projectName) = false ->
  let r := setupStaticConfiguration workspaceFolder projectName w in
  after r = w
  /\ result r = Normal tt
  /\ trace r
     = [Exists (settingsFilePath workspaceFolder projectName) false;
        ShowError ("settings.py not found in project " ++ projectName ++ ".")].
Proof.
  intros Hmissing r. subst r. rewrite setupStaticConfiguration_run.
  unfold pathExists in Hmissing.
  destruct (files w !! _); [discriminate|]. repeat split.
Qed.

(** A project that was never generated. *)
Lemma setupStaticConfiguration_missing_witness :
  pathExists generatedWorld (@settingsFilePath posix "/ws" "shop") = false
  /\ after (@setupStaticConfiguration posix "/ws" "shop" generatedWorld)
     = generatedWorld.
Proof.
  split; [reflexivity|].
  apply (@setupStaticConfiguration_missing posix generatedWorld "/ws" "shop"
           eq_refl).
Defined.

(** X2: when the write of a [settings.py] without the marker is refused, the
    patcher reports a failure and the world is as before. *)
Theorem setupStaticConfiguration_write_refused `{NodePath}
  (w : World) (workspaceFolder projectName content : string) :
  contentAt w (settingsFilePath workspaceFolder projectName) = Some content ->
  includes content "STATICFILES_DIRS" = false ->
  refused w (settingsFilePath workspaceFolder projectName) = true ->
  let r := setupStaticConfiguration workspaceFolder projectName w in
  after r = w
  /\ result r = Normal tt
  /\ last (trace r)
     = Some (ShowError
               "Failed to add static files configuration to settings.py.").
Proof.
  intros Hfile Hno Hw r. subst r. rewrite setupStaticConfiguration_run.
  unfold contentAt in Hfile.
  destruct (files w !! _) as [[c|]|]; try discriminate.
  injection Hfile as ->. rewrite Hno, Hw. repeat split.
Qed.

Lemma setupStaticConfiguration_write_refused_witness :
  contentAt lockedWorld (@settingsFilePath posix "/ws" "blog")
    = Some generatedSettings
  /\ includes generatedSettings "STATICFILES_DIRS" = false
  /\ refused lockedWorld (@settingsFilePath posix "/ws" "blog") = true
  /\ after (@setupStaticConfiguration posix "/ws" "blog" lockedWorld)
     = lockedWorld.
Proof.
  split; [reflexivity|]. split; [reflexivity|]. split; [reflexivity|].
  apply (@setupStaticConfiguration_write_refused posix lockedWorld
           "/ws" "blog" generatedSettings eq_refl eq_refl eq_refl).
Defined.

(** The patcher never throws, and calls nothing but the file system and
    the messages. *)
Lemma setupStaticConfiguration_quiet `{NodePath}
  (w : World) (workspaceFolder projectName : string) :
  result (setupStaticConfiguration workspaceFolder projectName w) = Normal tt
  /\ forallb isFileOrMessage
       (trace (setupStaticConfiguration workspaceFolder projectName w)) = true.
Proof.
  rewrite setupStaticConfiguration_run.
  destruct (files w !! _) as [[c|]|]; [|split; reflexivity..].
  destruct (includes c _); [split; reflexivity|].
  destruct (refused w _); split; reflexivity.
Qed.

(** X3: the patcher touches no other file: whatever happens, every path
    but that of [settings.py] holds what it held, and the patcher returns
    normally. *)
Theorem setupStaticConfiguration_frame `{NodePath}
  (w : World) (workspaceFolder projectName other : string) :
  other <> settingsFilePath workspaceFolder projectName ->
  let r := setupStaticConfiguration workspaceFolder projectName w in
  files (after r) !! other = files w !! other
  /\ result r = Normal tt
  /\ locked (after r) = locked w.
Proof.
  intros Hother r. subst r.
  split; [|split; [apply setupStaticConfiguration_quiet|]];
    rewrite setupStaticConfiguration_run;
    destruct (files w !! settingsFilePath _ _) as [[c|]|]; try reflexivity;
    destruct (includes c _); try reflexivity;
    destruct (refused w _); try reflexivity.
  cbn [after]. rewrite files_wrote. now apply lookup_insert_ne.
Qed.

Lemma setupStaticConfiguration_frame_witness :
  "/ws/blog/blog/urls.py" <> @settingsFilePath posix "/ws" "blog"
  /\ files (after (@setupStaticConfiguration posix "/ws" "blog"
                     generatedWorld)) !! "/ws/blog/blog/urls.py"
     = files generatedWorld !! "/ws/blog/blog/urls.py".
Proof.
  assert (Hne : "/ws/blog/blog/urls.py" <> @settingsFilePath posix "/ws" "blog")
    by (intros E; vm_compute in E; discriminate E).
  split; [exact Hne|].
  apply (@setupStaticConfiguration_frame posix generatedWorld "/ws" "blog"
           "/ws/blog/blog/urls.py" Hne).
Defined.

(** ** More on the routing splice *)

Lemma last_snoc_action (t : list Action) (a : Action) :
  last (t ++ [a]) = Some a.
Proof. apply last_snoc. Qed.

(** The first half calls nothing but the file system. *)
Lemma writeAppFiles_quiet `{NodePath}
  (w : World) (workspaceFolder projectName appName : string) :
  forallb isFileOrMessage
    (trace (writeAppFiles workspaceFolder projectName appName w)) = true.
Proof.
  unfold writeAppFiles, bind, mkdirSync, writeFileSync.
  run_cases; reflexivity.
Qed.

(** [setupIndexHtml] never throws, and calls nothing but the file system
    and the messages. *)
Lemma setupIndexHtml_quiet `{NodePath}
  (w : World) (workspaceFolder projectName appName : string) :
  result (setupIndexHtml workspaceFolder projectName appName w) = Normal tt
  /\ forallb isFileOrMessage
       (trace (setupIndexHtml workspaceFolder projectName appName w)) = true.
Proof.
  rewrite setupIndexHtml_run.
  destruct (appFilesOk w _ _ _).
  - destruct (contentAt _ _) as [c|]; [|split; reflexivity].
    destruct (includes c _); [split; reflexivity|].
    destruct (refused _ _); split; reflexivity.
  - split; [reflexivity|]. cbn [trace].
    rewrite forallb_app, writeAppFiles_quiet. reflexivity.
Qed.

(** X4: whatever the file system holds, [setupIndexHtml] returns normally
    and its last call is one of its two messages. *)
Theorem setupIndexHtml_ends_with_message `{NodePath}
  (w : World) (workspaceFolder projectName appName : string) :
  let r := setupIndexHtml workspaceFolder projectName appName w in
  result r = Normal tt
  /\ (last (trace r) = Some (ShowInfo setUpMessage)
      \/ last (trace r) = Some (ShowError setUpFailedMessage)).
Proof.
  intros r. subst r.
  split; [apply setupIndexHtml_quiet|].
  rewrite setupIndexHtml_run.
  destruct (appFilesOk w _ _ _).
  - destruct (contentAt _ _) as [c|]; [|now right].
    destruct (includes c _); [now left|].
    destruct (refused _ _); [now right | now left].
  - right. cbn [trace]. apply last_snoc_action.
Qed.

Lemma files_made (w : World) (path : string) :
  files (made w path) = <[path := Dir]> (files w).
Proof. reflexivity. Qed.





(** X6: when the project's [urls.py] that the splice reads has the include
    directive already, the file is not written again: the read is followed
    by the message of success only, and the file keeps its content. *)
Theorem setupIndexHtml_already_registered `{NodePath}
  (w : World) (workspaceFolder projectName appName content : string) :
  let path := projectUrlsFilePath workspaceFolder projectName in
  let r := setupIndexHtml workspaceFolder projectName appName w in
  In (Read path (Some content)) (trace r) ->
  includes content (includeDirective appName) = true ->
  trace r
  = [Mkdir (templatesDir workspaceFolder projectName appName);
     Write (indexHtmlPath workspaceFolder projectName appName)
       (indexHtmlContent appName);
     Write (viewsFilePath workspaceFolder projectName appName)
       (viewsContent appName);
     Write (urlsFilePath workspaceFolder projectName appName) urlsContent;
     Read path (Some content);
     ShowInfo setUpMessage]
  /\ contentAt (after r) path = Some content.
Proof.
  intros path r Hread Hin. subst path r.
  apply setupIndexHtml_read in Hread as [Hok Hc].
  rewrite setupIndexHtml_run, Hok, Hc, Hin. split; [reflexivity | exact Hc].
Qed.

Lemma setupIndexHtml_already_registered_witness :
  In (Read "/ws/blog/blog/urls.py" (Some registeredUrls))
    (trace (@setupIndexHtml posix "/ws" "blog" "posts" registeredWorld))
  /\ includes registeredUrls (includeDirective "posts") = true
  /\ contentAt
       (after (@setupIndexHtml posix "/ws" "blog" "posts" registeredWorld))
       "/ws/blog/blog/urls.py"
     = Some registeredUrls.
Proof.
  assert (Hread :
    In (Read "/ws/blog/blog/urls.py" (Some registeredUrls))
      (trace (@setupIndexHtml posix "/ws" "blog" "posts" registeredWorld))).
  { vm_compute. repeat (first [left; reflexivity | right]). }
  split; [exact Hread|]. split; [reflexivity|].
  exact (proj2
           (@setupIndexHtml_already_registered posix registeredWorld
              "/ws" "blog" "posts" registeredUrls Hread eq_refl)).
Defined.

(** X7: when the project's [urls.py] cannot be read, the run ends with the
    message of failure, yet the three files of the app have been written
    and stay: nothing is undone. *)
Theorem setupIndexHtml_unreadable_routes `{NodePath}
  (w : World) (workspaceFolder projectName appName : string) :
  let path := projectUrlsFilePath workspaceFolder projectName in
  let r := setupIndexHtml workspaceFolder projectName appName w in
  In (Read path None) (trace r) ->
  last (trace r) = Some (ShowError setUpFailedMessage)
  /\ written (trace r)
     = [indexHtmlPath workspaceFolder projectName appName;
        viewsFilePath workspaceFolder projectName appName;
        urlsFilePath workspaceFolder projectName appName]
  /\ contentAt (after r) (urlsFilePath workspaceFolder projectName appName)
     = Some urlsContent.
Proof.
  intros path r. subst path r.
  rewrite setupIndexHtml_run.
  destruct (appFilesOk w _ _ _).
  - destruct (contentAt _ _) as [c|].
    + intros Hr. exfalso.
      destruct (includes c _); [|destruct (refused _ _)];
        cbn in Hr;
        repeat (destruct Hr as [Hr|Hr]; try discriminate Hr);
        contradiction.
    + intros _. cbn [after trace]. repeat split.
      unfold appFilesWritten. apply contentAt_wrote.
  - cbn [trace]. intros Hr. exfalso.
    apply in_app_or in Hr as [Hr|Hr].
    + pose proof (writeAppFiles_mutates w workspaceFolder projectName appName)
        as Hm.
      rewrite forallb_forall in Hm. specialize (Hm _ Hr). discriminate Hm.
    + cbn in Hr. destruct Hr as [Hr|[]]. discriminate Hr.
Qed.

Lemma setupIndexHtml_unreadable_routes_witness :
  In (Read "/ws/blog/blog/urls.py" None)
    (trace (@setupIndexHtml posix "/ws" "blog" "posts" routelessWorld))
  /\ contentAt
       (after (@setupIndexHtml posix "/ws" "blog" "posts" routelessWorld))
       "/ws/blog/posts/urls.py"
     = Some urlsContent.
Proof.
  assert (Hread :
    In (Read "/ws/blog/blog/urls.py" None)
      (trace (@setupIndexHtml posix "/ws" "blog" "posts" routelessWorld))).
  { vm_compute. repeat (first [left; reflexivity | right]). }
  split; [exact Hread|].
  exact (proj2 (proj2
           (@setupIndexHtml_unreadable_routes posix routelessWorld
              "/ws" "blog" "posts" Hread))).
Defined.

(** Once the first half went through, the directory of the templates is
    there. *)
Lemma appFilesWritten_dir `{NodePath}
  (w : World) (workspaceFolder projectName appName : string) :
  appFilesOk w workspaceFolder projectName appName = true ->
  isDir (appFilesWritten w workspaceFolder projectName appName)
    (templatesDir workspaceFolder projectName appName) = true.
Proof.
  intros Hok. unfold appFilesOk in Hok. cbn zeta in Hok.
  apply andb_prop in Hok as [Hok Hu].
  apply andb_prop in Hok as [Hok Hv].
  apply andb_prop in Hok as [Ht Hi].
  apply negb_true_iff in Hi, Hv, Hu.
  apply isDir_templatesMade in Ht.
  destruct (refused_false _ _ Hi) as [_ Hdi].
  destruct (refused_false _ _ Hv) as [_ Hdv].
  destruct (refused_false _ _ Hu) as [_ Hdu].
  unfold appFilesWritten.
  repeat (apply isDir_wrote; [|assumption]). exact Ht.
Qed.

(** X8: after a run that ends with the message of success, and when the
    three files of the app and the project's [urls.py] are four different
    paths, the template, the view and the routes of the app hold their
    fixed texts and the directory of the templates exists. *)
Theorem setupIndexHtml_success_files `{NodePath}
  (w : World) (workspaceFolder projectName appName : string) :
  let r := setupIndexHtml workspaceFolder projectName appName w in
  last (trace r) = Some (ShowInfo setUpMessage) ->
  List.NoDup [indexHtmlPath workspaceFolder projectName appName;
         viewsFilePath workspaceFolder projectName appName;
         urlsFilePath workspaceFolder projectName appName;
         projectUrlsFilePath workspaceFolder projectName] ->
  contentAt (after r) (indexHtmlPath workspaceFolder projectName appName)
    = Some (indexHtmlContent appName)
  /\ contentAt (after r) (viewsFilePath workspaceFolder projectName appName)
     = Some (viewsContent appName)
  /\ contentAt (after r) (urlsFilePath workspaceFolder projectName appName)
     = Some urlsContent
  /\ isDir (after r) (templatesDir workspaceFolder projectName appName)
     = true.
Proof.
  intros r Hlast Hnodup. subst r.
  rewrite setupIndexHtml_run in *.
  destruct (appFilesOk w _ _ _) eqn:Hok;
    [|cbn [trace] in Hlast; rewrite last_snoc_action in Hlast;
      discriminate Hlast].
  pose proof (appFilesWritten_dir w workspaceFolder projectName appName Hok)
    as Hdir.
  apply NoDup_cons_iff in Hnodup as [Hi Hnodup].
  apply NoDup_cons_iff in Hnodup as [Hv Hnodup].
  apply NoDup_cons_iff in Hnodup as [Hu _].
  cbn in Hi, Hv, Hu.
  assert (Hiv : indexHtmlPath workspaceFolder projectName appName
                <> viewsFilePath workspaceFolder projectName appName)
    by intuition congruence.
  assert (Hiu : indexHtmlPath workspaceFolder projectName appName
                <> urlsFilePath workspaceFolder projectName appName)
    by intuition congruence.
  assert (Hip : indexHtmlPath workspaceFolder projectName appName
                <> projectUrlsFilePath workspaceFolder projectName)
    by intuition congruence.
  assert (Hvu : viewsFilePath workspaceFolder projectName appName
                <> urlsFilePath workspaceFolder projectName appName)
    by intuition congruence.
  assert (Hvp : viewsFilePath workspaceFolder projectName appName
                <> projectUrlsFilePath workspaceFolder projectName)
    by intuition congruence.
  assert (Hup : urlsFilePath workspaceFolder projectName appName
                <> projectUrlsFilePath workspaceFolder projectName)
    by intuition congruence.
  assert (Hfiles :
    contentAt (appFilesWritten w workspaceFolder projectName appName)
      (indexHtmlPath workspaceFolder projectName appName)
      = Some (indexHtmlContent appName)
    /\ contentAt (appFilesWritten w workspaceFolder projectName appName)
         (viewsFilePath workspaceFolder projectName appName)
       = Some (viewsContent appName)
    /\ contentAt (appFilesWritten w workspaceFolder projectName appName)
         (urlsFilePath workspaceFolder projectName appName)
       = Some urlsContent).
  { unfold appFilesWritten. repeat split.
    - rewrite !contentAt_wrote_ne by assumption. apply contentAt_wrote.
    - rewrite contentAt_wrote_ne by assumption. apply contentAt_wrote.
    - apply contentAt_wrote. }
  destruct Hfiles as (Hci & Hcv & Hcu).
  destruct (contentAt _ (projectUrlsFilePath _ _)) as [c|] eqn:Hc;
    [|discriminate Hlast].
  destruct (includes c _); [now repeat split|].
  destruct (refused _ _); [discriminate Hlast|].
  cbn [after]. rewrite !contentAt_wrote_ne by assumption.
  repeat split; try assumption.
  apply isDir_wrote; [assumption|]. now apply (contentAt_isDir _ _ c).
Qed.

Lemma setupIndexHtml_success_files_witness :
  last (trace (@setupIndexHtml posix "/ws" "blog" "posts" generatedWorld))
    = Some (ShowInfo setUpMessage)
  /\ List.NoDup [@indexHtmlPath posix "/ws" "blog" "posts";
                 @viewsFilePath posix "/ws" "blog" "posts";
                 @urlsFilePath posix "/ws" "blog" "posts";
                 @projectUrlsFilePath posix "/ws" "blog"]
  /\ contentAt
       (after (@setupIndexHtml posix "/ws" "blog" "posts" generatedWorld))
       "/ws/blog/posts/views.py"
     = Some (viewsContent "posts").
Proof.
  assert (Hnodup :
    List.NoDup [@indexHtmlPath posix "/ws" "blog" "posts";
                @viewsFilePath posix "/ws" "blog" "posts";
                @urlsFilePath posix "/ws" "blog" "posts";
                @projectUrlsFilePath posix "/ws" "blog"]).
  { vm_compute. repeat constructor; cbn; intuition discriminate. }
  split; [reflexivity|]. split; [exact Hnodup|].
  exact (proj1 (proj2
           (@setupIndexHtml_success_files posix generatedWorld
              "/ws" "blog" "posts" eq_refl Hnodup))).
Defined.

(** ** The text of the splice *)

Lemma startsWith_includes (s n : string) :
  startsWith s n = true -> includes s n = true.
Proof.
  intros Hs. unfold includes. destruct s; simpl; now rewrite Hs.
Qed.

Lemma indexOf_length (s n : string) (k : nat) :
  indexOf s n = Some k -> String.length (take k s) = k.
Proof.
  revert k; induction s as [|x s IH]; intros k Hk; simpl in Hk.
  - destruct (startsWith "" n); [|discriminate]. now injection Hk as <-.
  - destruct (startsWith (String x s) n); [now injection Hk as <-|].
    destruct (indexOf s n) as [j|]; [|discriminate].
    injection Hk as <-. simpl. f_equal. now apply IH.
Qed.

(** X9: on a text with the anchor line, and for an app name of letters,
    digits and underscores, the splice keeps everything before and after
    the first anchor line, puts the import of [include] before that line
    and the route of the app right after it; the anchor line is still
    there afterwards. *)
Theorem registration_splice (appName content : string) :
  allWordChars appName = true ->
  includes content anchor = true ->
  exists before rest,
    content = before ++ anchor ++ rest
    /\ indexOf content anchor = Some (String.length before)
    /\ replace content anchor (registration appName)
       = before ++ "from django.urls import include" ++ lf ++ lf
           ++ anchor ++ lf
           ++ "    path('" ++ appName ++ "/', include('" ++ appName
           ++ ".urls'))," ++ rest
    /\ includes (replace content anchor (registration appName)) anchor = true.
Proof.
  intros Hword Hanchor.
  destruct (indexOf_includes _ _ Hanchor) as [k Hk].
  exists (take k content), (drop (k + String.length anchor) content).
  assert (Hreplace :
    replace content anchor (registration appName)
    = take k content ++ "from django.urls import include" ++ lf ++ lf
        ++ anchor ++ lf
        ++ "    path('" ++ appName ++ "/', include('" ++ appName
        ++ ".urls'))," ++ drop (k + String.length anchor) content).
  { unfold replace. rewrite Hk.
    rewrite getSubstitution_plain by no_char Hword. cbn zeta.
    f_equal. same_text. }
  split; [now apply indexOf_split|].
  split; [now rewrite (indexOf_length _ _ _ Hk)|].
  split; [exact Hreplace|].
  rewrite Hreplace.
  apply includes_append_r.
  change ("from django.urls import include" ++ lf ++ lf ++ anchor ++ lf
            ++ "    path('" ++ appName ++ "/', include('" ++ appName
            ++ ".urls'))," ++ drop (k + String.length anchor) content)
    with (("from django.urls import include" ++ lf ++ lf)
            ++ anchor ++ lf
            ++ "    path('" ++ appName ++ "/', include('" ++ appName
            ++ ".urls'))," ++ drop (k + String.length anchor) content).
  apply includes_append_r, startsWith_includes, startsWith_append.
Qed.

Lemma registration_splice_witness :
  allWordChars "posts" = true
  /\ includes generatedUrls anchor = true
  /\ exists before rest,
       generatedUrls = before ++ anchor ++ rest
       /\ replace generatedUrls anchor (registration "posts")
          = before ++ "from django.urls import include" ++ lf ++ lf
              ++ anchor ++ lf
              ++ "    path('posts/', include('posts.urls'))," ++ rest.
Proof.
  split; [reflexivity|]. split; [reflexivity|].
  destruct (registration_splice "posts" generatedUrls eq_refl eq_refl)
    as (before & rest & Hsplit & _ & Hreplace & _).
  exists before, rest. split; assumption.
Defined.

(** ** The input boxes *)

Lemma validateAppName_accepts (value : string) (w : World) :
  validateAppName value w
  = {| result := Normal (if allWordChars value then None
                         else Some "App name should contain only letters, numbers, or underscores");
       after := w; trace := [] |}.
Proof.
  unfold validateAppName, testWord.
  destruct value as [|c value]; [reflexivity|].
  cbn [truthy andb]. now destruct (allWordChars (String c value)).
Qed.

Lemma submit_validateAppName (values : list string) (w : World) :
  submit validateAppName values w
  = {| result := Normal (List.find allWordChars values);
       after := w; trace := [] |}.
Proof.
  induction values as [|value values IH]; [reflexivity|].
  cbn [submit List.find]. unfold bind.
  rewrite validateAppName_accepts.
  destruct (allWordChars value); [reflexivity|].
  now rewrite IH.
Qed.

(** X10: the box of the app name gives the first submitted value made only
    of letters, digits and underscores (the empty value is one), or nothing
    when there is none; validating calls nothing. So the app name the
    command goes on with is always made of such characters. *)
Theorem showInputBox_app_name (w : World) :
  let r := showInputBox "Enter the Django app name" validateAppName w in
  let entered := List.find allWordChars (submitted w) in
  result r = Normal entered
  /\ trace r = [InputBox "Enter the Django app name" entered]
  /\ files (after r) = files w
  /\ allWordChars (orElse entered "") = true.
Proof.
  intros r entered. subst r entered.
  unfold showInputBox. fold (submitted w).
  rewrite submit_validateAppName. repeat split.
  destruct (List.find allWordChars (submitted w)) as [v|] eqn:E;
    [|reflexivity].
  apply find_some in E as [_ E]. cbn. now destruct (truthy v).
Qed.

Example retry_app_name :
  result (showInputBox "Enter the Django app name" validateAppName retryWorld)
  = Normal (Some "posts").
Proof. reflexivity. Qed.

Section ProjectName.
Context `{NodePath}.

Lemma submit_validateProjectName_find
  (folder : string) (values : list string) (w : World) :
  result (submit (validateProjectName folder) values w)
  = Normal (List.find (available w folder) values).
Proof.
  induction values as [|value values IH]; [reflexivity|].
  cbn [submit List.find]. unfold bind, validateProjectName, available.
  destruct (truthy value); cbn.
  - unfold existsSync. cbn.
    destruct (pathExists w _); cbn; [|reflexivity].
    specialize IH. unfold available in IH.
    destruct (submit _ values w) as [c w' t]. cbn in IH. now subst c.
  - unfold available in IH.
    destruct (submit _ values w) as [c w' t]. cbn in IH. now subst c.
Qed.

(** X11: the box of the project name gives the first submitted value that is
    not empty and names no existing entry of the folder, or nothing when
    there is none; validating only looks at the file system. *)
Theorem showInputBox_project_name (w : World) (folder : string) :
  let r := showInputBox "Enter the Django project name"
             (validateProjectName folder) w in
  result r = Normal (List.find (available w folder) (submitted w))
  /\ files (after r) = files w
  /\ List.filter mutates (trace r) = [].
Proof.
  intros r. subst r. unfold showInputBox. fold (submitted w).
  pose proof (submit_validateProjectName_find folder (submitted w)
                (withTyped w (tail (typed w)))) as Hfind.
  destruct (submit_validateProjectName folder (submitted w)
              (withTyped w (tail (typed w)))) as (Hw & Ht & _).
  destruct (submit _ _ _) as [c w' t]. cbn in Hfind, Hw, Ht. subst c w'.
  cbn. repeat split.
  rewrite List.filter_app, Ht. reflexivity.
Qed.

(** X12: when no folder is open, or the path of the first one is empty, the
    command only shows its error message: no box is shown, nothing else
    is called. *)
Theorem setupWorkspaceCmd_no_folder (w : World) :
  workspaceFolders w = None
  \/ (exists others, workspaceFolders w = Some ("" :: others)) ->
  setupWorkspaceCmd w
  = {| result := Normal tt; after := w;
       trace := [ShowError
                   "Please open a folder before running this command."] |}.
Proof.
  intros [Hnone|[others Hempty]];
    unfold setupWorkspaceCmd, func, bind, firstWorkspaceFolder;
    [rewrite Hnone | rewrite Hempty]; reflexivity.
Qed.

End ProjectName.

Lemma setupWorkspaceCmd_no_folder_witness :
  (workspaceFolders noFolderWorld = None
   \/ exists others, workspaceFolders noFolderWorld = Some ("" :: others))
  /\ trace (@setupWorkspaceCmd posix noFolderWorld)
     = [ShowError "Please open a folder before running this command."].
Proof.
  split; [now left|].
  exact (f_equal trace
           (@setupWorkspaceCmd_no_folder posix noFolderWorld
              (or_introl eq_refl))).
Defined.

(** ** More on the pipeline *)

Lemma quiet_no_exec (t : list Action) :
  forallb isFileOrMessage t = true -> List.filter isExec t = [].
Proof.
  induction t as [|a t IH]; [reflexivity|].
  cbn. intros Hq. apply andb_prop in Hq as [Ha Hq].
  rewrite (IH Hq). now destruct a.
Qed.

Lemma quiet_no_quickPicks (t : list Action) :
  forallb isFileOrMessage t = true -> quickPicks t = [].
Proof.
  induction t as [|a t IH]; [reflexivity|].
  cbn. intros Hq. apply andb_prop in Hq as [Ha Hq].
  unfold quickPicks in IH. rewrite (IH Hq). now destruct a.
Qed.

Lemma quickPicks_app (t1 t2 : list Action) :
  quickPicks (t1 ++ t2) = (quickPicks t1 ++ quickPicks t2)%list.
Proof. apply flat_map_app. Qed.

(** A quick pick between [Yes] and [No] answers one of them or nothing. *)
Lemma showQuickPick_yes_no (question : string) (w : World) :
  exists picked,
    showQuickPick ["Yes"; "No"] question w
    = {| result := Normal picked; after := withPicks w (tail (picks w));
         trace := [QuickPick question picked] |}
    /\ (picked = None \/ picked = Some "Yes" \/ picked = Some "No").
Proof.
  unfold showQuickPick.
  destruct (picks w) as [|[[|[|n]]|] rest]; cbn; eexists; split;
    try reflexivity; auto.
  destruct n; cbn; auto.
Qed.

Ltac ask_cases :=
  repeat (cbn;
    match goal with
    | |- context [showQuickPick ["Yes"; "No"] ?q ?w] =>
        let picked := fresh "picked" in
        let E := fresh "E" in
        destruct (showQuickPick_yes_no q w) as (picked & E & [-> | [-> | ->]]);
        rewrite E; clear E
    | |- context [setupStaticConfiguration ?a ?b ?w] =>
        let Hq := fresh "Hq" in
        pose proof (setupStaticConfiguration_quiet w a b) as Hq;
        destruct (setupStaticConfiguration a b w) as [? ? ?];
        cbn in Hq; destruct Hq as [-> Hq]
    | |- context [setupIndexHtml ?a ?b ?c ?w] =>
        let Hq := fresh "Hq" in
        pose proof (setupIndexHtml_quiet w a b c) as Hq;
        destruct (setupIndexHtml a b c w) as [? ? ?];
        cbn in Hq; destruct Hq as [-> Hq]
    end).

Ltac pipeline_unfold :=
  unfold setupDjangoWorkspace, func, tryCatch, bind, when, existsSync,
    execSync, showErrorMessage, showInformationMessage, emit, return_, ret.

(** X13: the pipeline never throws: whatever the commands, the file system
    and the user do, it returns normally. *)
Theorem setupDjangoWorkspace_returns `{NodePath}
  (w : World) (workspaceFolder projectName appName : string) :
  result (setupDjangoWorkspace workspaceFolder projectName appName w)
  = Normal tt.
Proof.
  pipeline_unfold.
  destruct appName as [|a appName]; pipeline_cases; try reflexivity;
    ask_cases; reflexivity.
Qed.

(** X14: the pipeline starts the interpreter probe, then at most the project
    generator in the workspace folder and the app generator in the project
    folder, in this order and once each; the app generator only for an app
    name that is not empty. It starts nothing else. *)
Theorem setupDjangoWorkspace_processes `{NodePath}
  (w : World) (workspaceFolder projectName appName : string) :
  let started :=
    List.filter isExec
      (trace (setupDjangoWorkspace workspaceFolder projectName appName w)) in
  started = [probeCommand]
  \/ started = [probeCommand; projectCommand workspaceFolder projectName]
  \/ (truthy appName = true
      /\ started = [probeCommand; projectCommand workspaceFolder projectName;
                    appCommand workspaceFolder projectName appName]).
Proof.
  intros started. subst started.
  unfold probeCommand, projectCommand, appCommand.
  pipeline_unfold.
  destruct appName as [|a appName]; pipeline_cases;
    try (left; reflexivity); try (right; left; reflexivity);
    ask_cases; cbn;
    rewrite ?List.filter_app, ?quiet_no_exec by assumption; cbn;
    rewrite ?List.filter_app, ?quiet_no_exec by assumption; cbn;
    first [right; left; reflexivity | right; right; split; reflexivity].
Qed.

(** X15: a run of the pipeline either stops at an error message before any
    question, having written nothing, or asks its two questions, in
    order. *)
Theorem setupDjangoWorkspace_stops_or_asks `{NodePath}
  (w : World) (workspaceFolder projectName appName : string) :
  let r := setupDjangoWorkspace workspaceFolder projectName appName w in
  (quickPicks (trace r) = []
   /\ written (trace r) = []
   /\ exists message, last (trace r) = Some (ShowError message))
  \/ quickPicks (trace r) = [staticQuestion; indexQuestion].
Proof.
  intros r. subst r. unfold staticQuestion, indexQuestion.
  pipeline_unfold.
  destruct appName as [|a appName]; pipeline_cases;
    try (left; cbn; repeat split; eexists; reflexivity);
    right; ask_cases; cbn;
    change (flat_map _ ?t) with (quickPicks t);
    repeat (rewrite ?quickPicks_app, ?quiet_no_quickPicks by assumption;
            cbn);
    reflexivity.
Qed.

(** X16: when the interpreter probe fails, the pipeline shows its message
    about Python and stops: nothing else is called. *)
Theorem setupDjangoWorkspace_no_python `{NodePath}
  (w : World) (workspaceFolder projectName appName : string) :
  snd (os w "python --version" None (files w)) = false ->
  let r := setupDjangoWorkspace workspaceFolder projectName appName w in
  trace r
  = [probeCommand;
     ShowError
       "Python is not installed or not added to PATH. Please fix this before proceeding."]
  /\ result r = Normal tt.
Proof.
  intros Hprobe r. subst r. unfold probeCommand.
  pipeline_unfold. cbn. rewrite Hprobe. split; reflexivity.
Qed.

Lemma setupDjangoWorkspace_no_python_witness :
  snd (os noPythonWorld "python --version" None (files noPythonWorld)) = false
  /\ trace (@setupDjangoWorkspace posix "/ws" "blog" "posts" noPythonWorld)
     = [probeCommand;
        ShowError
          "Python is not installed or not added to PATH. Please fix this before proceeding."].
Proof.
  split; [reflexivity|].
  exact (proj1
           (@setupDjangoWorkspace_no_python posix noPythonWorld
              "/ws" "blog" "posts" eq_refl)).
Defined.

(** X17: when the user answers neither question with [Yes] (the first item),
    the pipeline itself reads no file, writes none and makes no directory:
    only the generators touch the file system. *)
Theorem setupDjangoWorkspace_declined `{NodePath}
  (w : World) (workspaceFolder projectName appName : string) :
  nth_error (picks w) 0 <> Some (Some 0) ->
  nth_error (picks w) 1 <> Some (Some 0) ->
  List.filter readsOrWrites
    (trace (setupDjangoWorkspace workspaceFolder projectName appName w))
  = [].
Proof.
  intros Hfirst Hsecond.
  pipeline_unfold. unfold showQuickPick.
  destruct (picks w) as [|first others] eqn:Epicks;
    [|destruct first as [[|[|n]]|]; [cbn in Hfirst; congruence|..];
      (destruct others as [|second rest];
       [|destruct second as [[|[|m]]|]; [cbn in Hsecond; congruence|..]])];
    destruct appName as [|a appName]; pipeline_cases;
    repeat (progress (cbn; rewrite ?Epicks, ?nth_error_nil)); reflexivity.
Qed.

Lemma setupDjangoWorkspace_declined_witness :
  nth_error (picks declinedWorld) 0 <> Some (Some 0)
  /\ nth_error (picks declinedWorld) 1 <> Some (Some 0)
  /\ List.filter readsOrWrites
       (trace (@setupDjangoWorkspace posix "/ws" "blog" "posts" declinedWorld))
     = [].
Proof.
  assert (Hfirst : nth_error (picks declinedWorld) 0 <> Some (Some 0))
    by discriminate.
  assert (Hsecond : nth_error (picks declinedWorld) 1 <> Some (Some 0))
    by discriminate.
  split; [exact Hfirst|]. split; [exact Hsecond|].
  apply (@setupDjangoWorkspace_declined posix declinedWorld
           "/ws" "blog" "posts" Hfirst Hsecond).
Defined.

(** ** More on the earlier variant *)

Ltac earlier_unfold :=
  unfold Earlier.setupDjangoWorkspace, func, tryCatch, bind, when,
    existsSync, execSync, writeFileSync, mkdirSync, showErrorMessage,
    showInformationMessage, emit, return_, ret.

(** X18: the earlier pipeline installs the dependencies before it writes the
    manifest: in every run that writes a file, the call of
    [pip install -r requirements.txt] comes right before the write of
    [requirements.txt]. *)
Theorem earlier_installs_before_manifest `{NodePath}
  (w : World) (workspaceFolder projectName appName : string) :
  let r := Earlier.setupDjangoWorkspace workspaceFolder projectName appName w in
  written (trace r) = []
  \/ exists k,
       nth_error (trace r) k
       = Some (Exec "pip install -r requirements.txt"
                 (Some (path_join [workspaceFolder; projectName])))
       /\ nth_error (trace r) (S k)
          = Some (Write (requirementsPath workspaceFolder projectName)
                    (join lf Earlier.requirements)).
Proof.
  intros r. subst r. unfold requirementsPath.
  earlier_unfold.
  destruct appName as [|a appName]; pipeline_cases;
    try (left; reflexivity);
    right; first [exists 5; split; reflexivity | exists 7; split; reflexivity].
Qed.

(** X19: when the directory [.vscode] cannot be made, the earlier pipeline
    throws: its last call is that [mkdirSync], it has shown no error
    message, and the manifest it wrote stays. *)
Theorem earlier_mkdir_throws `{NodePath}
  (w : World) (workspaceFolder projectName appName : string) :
  let r := Earlier.setupDjangoWorkspace workspaceFolder projectName appName w in
  result r = Throw ->
  last (trace r)
    = Some (Mkdir (path_join [path_join [workspaceFolder; projectName];
                              ".vscode"]))
  /\ List.filter isError (trace r) = []
  /\ contentAt (after r) (requirementsPath workspaceFolder projectName)
     = Some ("Django==3.2.6" ++ lf ++ "djangorestframework==3.12.4").
Proof.
  intros r. subst r. unfold requirementsPath.
  earlier_unfold.
  destruct appName as [|a appName]; pipeline_cases;
    intros Hthrow; try discriminate Hthrow;
    cbn; (split; [reflexivity|]); (split; [reflexivity|]);
    apply contentAt_wrote.
Qed.

Lemma earlier_mkdir_throws_witness :
  result (@Earlier.setupDjangoWorkspace posix "/ws" "blog" "posts"
            dotfileWorld) = Throw
  /\ List.filter isError
       (trace (@Earlier.setupDjangoWorkspace posix "/ws" "blog" "posts"
                 dotfileWorld)) = [].
Proof.
  split; [reflexivity|].
  exact (proj1 (proj2
           (@earlier_mkdir_throws posix dotfileWorld "/ws" "blog" "posts"
              eq_refl))).
Defined.

(** The text of the editor settings. *)
Lemma stringify2_settings :
  stringify2 Earlier.settings
  = "{" ++ lf ++
    "  " ++ dq ++ "python.pythonPath" ++ dq ++ ": "
      ++ dq ++ "venv/bin/python" ++ dq ++ "," ++ lf ++
    "  " ++ dq ++ "python.linting.enabled" ++ dq ++ ": true," ++ lf ++
    "  " ++ dq ++ "python.linting.pylintEnabled" ++ dq ++ ": true," ++ lf ++
    "  " ++ dq ++ "python.formatting.autopep8Path" ++ dq ++ ": "
      ++ dq ++ "autopep8" ++ dq ++ lf ++ "}".
Proof. reflexivity. Qed.

Lemma isDir_made (w : World) (path : string) : isDir (made w path) path = true.
Proof. unfold isDir. now rewrite files_made, lookup_insert_eq. Qed.

(** X20: after a run of the earlier pipeline that ends with its message of
    success, [.vscode] is a directory and [settings.json] in it holds the
    four fixed settings, printed with an indentation of two. *)
Theorem earlier_writes_settings `{NodePath}
  (w : World) (workspaceFolder projectName appName : string) :
  let r := Earlier.setupDjangoWorkspace workspaceFolder projectName appName w in
  last (trace r)
    = Some (ShowInfo ("Django workspace for project '" ++ projectName
                        ++ "' is set up!")) ->
  contentAt (after r) (vscodeSettingsPath workspaceFolder projectName)
    = Some ("{" ++ lf ++
            "  " ++ dq ++ "python.pythonPath" ++ dq ++ ": "
              ++ dq ++ "venv/bin/python" ++ dq ++ "," ++ lf ++
            "  " ++ dq ++ "python.linting.enabled" ++ dq ++ ": true," ++ lf ++
            "  " ++ dq ++ "python.linting.pylintEnabled" ++ dq ++ ": true,"
              ++ lf ++
            "  " ++ dq ++ "python.formatting.autopep8Path" ++ dq ++ ": "
              ++ dq ++ "autopep8" ++ dq ++ lf ++ "}")
  /\ isDir (after r)
       (path_join [path_join [workspaceFolder; projectName]; ".vscode"])
     = true.
Proof.
  intros r. subst r. unfold vscodeSettingsPath.
  earlier_unfold.
  destruct appName as [|a appName]; pipeline_cases;
    intros Hlast; try discriminate Hlast; cbn.
  all: split; [apply contentAt_wrote|].
  all: match goal with
       | Hw : refused ?W ?p = false |- isDir (wrote ?W ?p _) _ = true =>
           apply isDir_wrote; [|exact (proj2 (refused_false _ _ Hw))]
       end.
  all: first [ apply isDir_made
             | unfold isDir;
               match goal with
               | Hd : files ?W !! ?d = Some Dir |- _ => now rewrite Hd
               end ].
Qed.

Lemma earlier_writes_settings_witness :
  last (trace (@Earlier.setupDjangoWorkspace posix "/ws" "blog" "posts"
                 freshWorld))
    = Some (ShowInfo "Django workspace for project 'blog' is set up!")
  /\ isDir
       (after (@Earlier.setupDjangoWorkspace posix "/ws" "blog" "posts"
                 freshWorld))
       "/ws/blog/.vscode" = true.
Proof.
  split; [reflexivity|].
  exact (proj2
           (@earlier_writes_settings posix freshWorld "/ws" "blog" "posts"
              eq_refl)).
Defined.

(** ** The intermediate variant *)

Lemma quiet_no_quickPick (t : list Action) (question : string)
  (picked : option string) :
  forallb isFileOrMessage t = true -> ~ In (QuickPick question picked) t.
Proof.
  intros Hq Hin. rewrite forallb_forall in Hq.
  specialize (Hq _ Hin). discriminate Hq.
Qed.

(** X21: in the intermediate variant every answer to the question but [Yes],
    a dismissal included, is a refusal: the run ends with the message that
    the set up is skipped, and the pipeline itself has read no file,
    written none and made no directory. *)
Theorem intermediate_not_yes_is_skipped `{NodePath}
  (w : World) (workspaceFolder projectName appName : string)
  (picked : option string) :
  let r :=
    Intermediate.setupDjangoWorkspace workspaceFolder projectName appName w in
  In (QuickPick staticQuestion picked) (trace r) ->
  picked <> Some "Yes" ->
  last (trace r) = Some (ShowInfo "Static files setup skipped.")
  /\ List.filter readsOrWrites (trace r) = [].
Proof.
  intros r. subst r. unfold staticQuestion.
  unfold Intermediate.setupDjangoWorkspace.
  pipeline_unfold.
  destruct appName as [|a appName]; pipeline_cases;
    try (cbn; intros Hin; exfalso;
         repeat (destruct Hin as [Hin|Hin]; try discriminate Hin);
         contradiction);
    ask_cases; cbn; intros Hin Hne;
    try (split; reflexivity);
    exfalso;
    repeat (destruct Hin as [Hin|Hin];
            [first [discriminate Hin | injection Hin; congruence]|]);
    try contradiction;
    eapply quiet_no_quickPick; eassumption.
Qed.

Lemma intermediate_not_yes_is_skipped_witness :
  In (QuickPick staticQuestion None)
    (trace (@Intermediate.setupDjangoWorkspace posix "/ws" "blog" ""
              appDismissedWorld))
  /\ None <> Some "Yes"
  /\ last (trace (@Intermediate.setupDjangoWorkspace posix "/ws" "blog" ""
                    appDismissedWorld))
     = Some (ShowInfo "Static files setup skipped.").
Proof.
  assert (Hin :
    In (QuickPick staticQuestion None)
      (trace (@Intermediate.setupDjangoWorkspace posix "/ws" "blog" ""
                appDismissedWorld))).
  { vm_compute. repeat (first [left; reflexivity | right]). }
  assert (Hne : @None string <> Some "Yes") by discriminate.
  split; [exact Hin|]. split; [exact Hne|].
  exact (proj1
           (@intermediate_not_yes_is_skipped posix appDismissedWorld
              "/ws" "blog" "" None Hin Hne)).
Defined.
